(** * Extract-PowerPointText: outline reconstruction from a slide's shape tree

    A shallow embedding of [src/office/Extract-PowerPointText.py]
    ([extract_text_from_shape], [extract_slide_text]) together with the
    properties of the bullet resolver, the shape text assembler, the image
    alt-text resolver and the slide assembler.

    Python strings are sequences of code points: [pystr] is [list N].
    Attribute probing ([hasattr], [getattr], [try]/[except]) is modelled
    with an explicit [result] type: reading an attribute either yields a
    value or raises an exception. *)

From Stdlib Require Import List NArith Arith Lia Bool String Ascii.
Import ListNotations.

Local Open Scope N_scope.

(** ** Python strings *)

Module Py.

Definition pystr := list N.

(** Code points of a UTF-8 encoded byte sequence (the source file is
    UTF-8; this is only used to write literals). *)
Fixpoint utf8_decode (bs : list N) : pystr :=
  match bs with
  | [] => []
  | b0 :: t0 =>
    if b0 <? 128 then b0 :: utf8_decode t0
    else if b0 <? 224 then
      match t0 with
      | b1 :: t1 =>
        N.lor (N.shiftl (N.land b0 31) 6) (N.land b1 63) :: utf8_decode t1
      | [] => [b0]
      end
    else if b0 <? 240 then
      match t0 with
      | b1 :: b2 :: t2 =>
        N.lor (N.shiftl (N.land b0 15) 12)
          (N.lor (N.shiftl (N.land b1 63) 6) (N.land b2 63)) :: utf8_decode t2
      | _ => [b0]
      end
    else
      match t0 with
      | b1 :: b2 :: b3 :: t3 =>
        N.lor (N.shiftl (N.land b0 7) 18)
          (N.lor (N.shiftl (N.land b1 63) 12)
             (N.lor (N.shiftl (N.land b2 63) 6) (N.land b3 63))) :: utf8_decode t3
      | _ => [b0]
      end
  end.

Definition py (s : string) : pystr :=
  utf8_decode (map N_of_ascii (list_ascii_of_string s)).

(** [str.isspace] on one code point: the white-space table of CPython
    ([_PyUnicode_IsWhitespace]). It is what [strip], [lstrip], [rstrip]
    and [split()] remove. *)
Definition isspace (c : N) : bool :=
  ((9 <=? c) && (c <=? 13)) || ((28 <=? c) && (c <=? 32))
  || (c =? 133) || (c =? 160) || (c =? 5760)
  || ((8192 <=? c) && (c <=? 8202))
  || (c =? 8232) || (c =? 8233) || (c =? 8239) || (c =? 8287) || (c =? 12288).

Fixpoint lstrip (s : pystr) : pystr :=
  match s with
  | [] => []
  | c :: r => if isspace c then lstrip r else s
  end.

Definition rstrip (s : pystr) : pystr := rev (lstrip (rev s)).

Definition strip (s : pystr) : pystr := lstrip (rstrip s).

(** Truthiness of a string: non-empty. *)
Definition truthy (s : pystr) : bool :=
  match s with [] => false | _ :: _ => true end.

Fixpoint startswith (s prefix : pystr) : bool :=
  match prefix, s with
  | [], _ => true
  | _ :: _, [] => false
  | p :: ps, c :: cs => (p =? c) && startswith cs ps
  end.

Definition endswith (s suffix : pystr) : bool :=
  startswith (rev s) (rev suffix).

(** [needle in hay] *)
Fixpoint contains (hay needle : pystr) : bool :=
  startswith hay needle ||
  match hay with
  | [] => false
  | _ :: r => contains r needle
  end.

(** [s.split()]: maximal runs of non-white-space code points. [cur] is
    the word being read, reversed. *)
Fixpoint split_ws_aux (s : pystr) (cur : pystr) : list pystr :=
  match s with
  | [] => match cur with [] => [] | _ => [rev cur] end
  | c :: r =>
    if isspace c then
      match cur with
      | [] => split_ws_aux r []
      | _ => rev cur :: split_ws_aux r []
      end
    else split_ws_aux r (c :: cur)
  end.

Definition split_ws (s : pystr) : list pystr := split_ws_aux s [].

(** [s.split(sep)] for a one code point separator: empty pieces are kept. *)
Fixpoint split_on_aux (sep : N) (s : pystr) (cur : pystr) : list pystr :=
  match s with
  | [] => [rev cur]
  | c :: r =>
    if c =? sep then rev cur :: split_on_aux sep r []
    else split_on_aux sep r (c :: cur)
  end.

Definition split_on (sep : N) (s : pystr) : list pystr := split_on_aux sep s [].

(** [" " * n] and friends. *)
Fixpoint repeat_str (s : pystr) (n : nat) : pystr :=
  match n with
  | O => []
  | S k => s ++ repeat_str s k
  end.

(** [str(n)] for a natural number. *)
Fixpoint uint_digits (u : Decimal.uint) : pystr :=
  match u with
  | Decimal.Nil => []
  | Decimal.D0 r => 48 :: uint_digits r
  | Decimal.D1 r => 49 :: uint_digits r
  | Decimal.D2 r => 50 :: uint_digits r
  | Decimal.D3 r => 51 :: uint_digits r
  | Decimal.D4 r => 52 :: uint_digits r
  | Decimal.D5 r => 53 :: uint_digits r
  | Decimal.D6 r => 54 :: uint_digits r
  | Decimal.D7 r => 55 :: uint_digits r
  | Decimal.D8 r => 56 :: uint_digits r
  | Decimal.D9 r => 57 :: uint_digits r
  end.

Definition str_of_nat (n : nat) : pystr := uint_digits (Nat.to_uint n).

(** [xs[-1]] on a non-empty list. *)
Definition last_opt {A} (xs : list A) : option A :=
  match rev xs with
  | [] => None
  | x :: _ => Some x
  end.

(** [any(f(x) for x in xs)] *)
Definition any {A} (f : A -> bool) (xs : list A) : bool := existsb f xs.

End Py.

Import Py.

(** ** Exceptions and attribute access *)

(** The exceptions the script can meet; all are subclasses of
    [Exception]. The payload is the message, [str(e)]. *)
Inductive exn :=
| AttributeError (msg : pystr)
| ValueError (msg : pystr)
| OtherException (msg : pystr).

Definition exn_str (e : exn) : pystr :=
  match e with
  | AttributeError m | ValueError m | OtherException m => m
  end.

(** Outcome of evaluating an expression or reading an attribute. A missing
    attribute is [Raise (AttributeError _)]. *)
Inductive result (A : Type) :=
| Ok (a : A)
| Raise (e : exn).
Arguments Ok {A} a.
Arguments Raise {A} e.

(** [hasattr(obj, name)]: false on [AttributeError]; any other exception
    raised by the attribute goes through. *)
Definition hasattr {A} (x : result A) : result bool :=
  match x with
  | Ok _ => Ok true
  | Raise (AttributeError _) => Ok false
  | Raise e => Raise e
  end.

(** [getattr(obj, name, default)] *)
Definition getattr_default {A} (x : result A) (default : A) : result A :=
  match x with
  | Ok a => Ok a
  | Raise (AttributeError _) => Ok default
  | Raise e => Raise e
  end.

(** ** The input tree *)

(** [<a:pPr>]: which bullet elements it has. [buChar] is [Some None] for
    an [a:buChar] element without [char] attribute. *)
Record PPr := {
  buChar : option (option pystr);
  buAutoNum : bool;
  buBlip : bool;
  buFont : bool;
  buNone : bool
}.

(** A paragraph: [paragraph.text], [paragraph.level], the outcome of
    reading [paragraph._p.pPr] ([Ok None] when it is [None]) and of reading
    [paragraph.runs]. For a run, [Ok b] says that [run._r.rPr] exists and
    that [hasattr(run._r.rPr, 'buChar')] is [b]; [Raise (AttributeError _)]
    that [_r] or [rPr] is missing. The level is never negative
    (python-pptx: 0 to 8). *)
Record Paragraph := {
  p_text : pystr;
  p_level : nat;
  p_pPr : result (option PPr);
  p_runs : result (list (result bool))
}.

(** [shape.text_frame]. [tf_bool] is its truth value (python-pptx's
    [TextFrame] is always true). [index_finds] says whether
    [all_paragraphs.index(paragraph)] (line 102) finds the paragraph in the
    list read again from the frame; [index] raises [ValueError] when it
    does not. That is decided by how the library compares paragraph
    objects: python-pptx makes new proxy objects whenever [paragraphs] is
    read. *)
Record TextFrame := {
  tf_bool : bool;
  index_finds : bool;
  paragraphs : list Paragraph
}.

(** An element met by [shape._element.iter()]: its tag ([None] when
    [el.tag] is not a string, as for a comment) and what [el.get('descr')]
    and [el.get('title')] return. *)
Record XmlElement := {
  el_tag : option pystr;
  el_descr : option pystr;
  el_title : option pystr
}.

Inductive MSO_SHAPE_TYPE :=
| AUTO_SHAPE | GROUP | PICTURE | PLACEHOLDER | TEXT_BOX | TABLE | OTHER_SHAPE.

Definition is_PICTURE (t : MSO_SHAPE_TYPE) : bool :=
  match t with PICTURE => true | _ => false end.

(** A shape, by the attributes the script reads. [placeholder_format] is
    [Ok (Some idx)] for a placeholder, [Ok None] when the attribute is
    [None]; python-pptx raises [ValueError] there for a shape that is not a
    placeholder. [text_frame] is [Ok None] when the attribute is [None]. *)
Record Shape := {
  placeholder_format : result (option N);
  shape_type : result MSO_SHAPE_TYPE;
  text_frame : result (option TextFrame);
  text : result pystr;
  description : result pystr;
  alt_text : result pystr;
  element_iter : result (list XmlElement);
  name : result pystr
}.

(** A slide: [slide.shapes] ([None] when the attribute is missing) and the
    text of [slide.notes_slide.notes_text_frame] ([None] when there is no
    notes slide or no notes text frame). *)
Record Slide := {
  shapes : option (list Shape);
  notes_text : option pystr
}.

(** [slide_content] *)
Record SlideRecord := {
  title : pystr;
  content : list pystr;
  notes : pystr;
  images : list pystr
}.

(** ** Constants of the script *)

Definition bullet_chars : list pystr :=
  Eval cbv in [py "•"; py "◦"; py "▪"; py "-"; py "*"].

Definition default_bullets : list pystr :=
  Eval cbv in [py "• "; py "◦ "; py "▪ "].

Definition space : pystr := Eval cbv in py " ".
Definition colon : pystr := Eval cbv in py ":".
Definition dash_bullet : pystr := Eval cbv in py "- ".
Definition dot_bullet : pystr := Eval cbv in py "• ".
Definition ring_bullet : pystr := Eval cbv in py "◦ ".
Definition square_bullet : pystr := Eval cbv in py "▪ ".

Definition context_keywords : list pystr :=
  Eval cbv in
  [py "align"; py "coordinate"; py "use"; py "incremental"; py "cross";
   py "iterative"; py "teams"; py "backlogs"; py "decisions"].

Definition slide2_patterns : list pystr :=
  Eval cbv in
  [py "align decision"; py "coordinate shared"; py "agile ceremonies";
   py "incremental"; py "cross-functional"; py "iterative"; py "teams operate";
   py "backlogs are"; py "shared decisions"].

Definition flat_keywords : list pystr :=
  Eval cbv in
  [py "align"; py "coordinate"; py "use"; py "teams"; py "incremental";
   py "cross"; py "iterative"; py "backlogs"; py "decisions"; py "shared"].

Definition numbered_prefixes : list pystr :=
  Eval cbv in
  [py "•"; py "◦"; py "▪"; py "-"; py "*"; py "1."; py "2."; py "3."; py "4.";
   py "5."; py "6."; py "7."; py "8."; py "9."; py "0."].

Definition generic_names : list pystr :=
  Eval cbv in [py "Picture "; py "Graphic "; py "Image "].

Definition cNvPr : pystr := Eval cbv in py "cNvPr".
Definition no_alt_text : pystr := Eval cbv in py "[No alt-text] ".
Definition image_prefix : pystr := Eval cbv in py "Image_".
Definition warning_prefix : pystr :=
  Eval cbv in py "Warning: Skipped shape due to error: ".
Definition none_has_no_paragraphs : pystr :=
  Eval cbv in py "'NoneType' object has no attribute 'paragraphs'".

(** [default_bullets[level] if level < len(default_bullets) else "- "] *)
Definition level_bullet (level : nat) : pystr :=
  if (level <? List.length default_bullets)%nat
  then nth level default_bullets []
  else dash_bullet.

(** ** The script *)

Section Script.

(** [str.lower] and [str.isupper] outside ASCII follow the Unicode
    character database, which is not part of the script.
    [unicode_lower before c after] is what [lower] writes for the
    non-ASCII code point [c] met between [before] (reversed) and [after];
    [unicode_isupper c] is [isupper] on the non-ASCII code point [c]. *)
Variable unicode_lower : pystr -> N -> pystr -> pystr.
Variable unicode_isupper : N -> bool.

Fixpoint lower_from (before s : pystr) : pystr :=
  match s with
  | [] => []
  | c :: r =>
    (if c <? 128
     then [if (65 <=? c) && (c <=? 90) then c + 32 else c]
     else unicode_lower before c r)
    ++ lower_from (c :: before) r
  end.

Definition lower (s : pystr) : pystr := lower_from [] s.

Definition isupper (c : N) : bool :=
  if c <? 128 then (65 <=? c) && (c <=? 90) else unicode_isupper c.

(** *** [extract_text_from_shape], paragraphs of a text frame (lines 40-130) *)

(** The variables [has_ppt_bullet] and [original_bullet]. *)
Record probe_state := {
  has_ppt_bullet : bool;
  original_bullet : pystr
}.

Definition probe_init : probe_state :=
  {| has_ppt_bullet := false; original_bullet := [] |}.

Definition has_bullet_element (ppr : PPr) : bool :=
  match buChar ppr with Some _ => true | None => false end
  || buAutoNum ppr || buBlip ppr || buFont ppr.

(** Method 1 (lines 54-63). The second component says that an exception
    left the block. *)
Definition method1 (p : Paragraph) : probe_state * bool :=
  match hasattr (p_pPr p) with
  | Raise _ => (probe_init, true)
  | Ok false => (probe_init, false)
  | Ok true =>
    match p_pPr p with
    | Raise _ => (probe_init, true)
    | Ok None => (probe_init, false)
    | Ok (Some ppr) =>
      if has_bullet_element ppr then
        ({| has_ppt_bullet := true;
            original_bullet :=
              match buChar ppr with
              | Some (Some char) => char ++ space
              | _ => []
              end |}, false)
      else if buNone ppr then
        ({| has_ppt_bullet := false; original_bullet := [] |}, false)
      else (probe_init, false)
    end
  end.

(** The loop over the runs of Method 2 (lines 67-71): [Some true] when a
    run has the marker ([break]), [Some false] when the loop ends without,
    [None] when a probe raises. *)
Fixpoint runs_loop (runs : list (result bool)) : option bool :=
  match runs with
  | [] => Some false
  | run :: rest =>
    match hasattr run with
    | Raise _ => None
    | Ok false => runs_loop rest
    | Ok true =>
      match run with
      | Ok true => Some true
      | _ => runs_loop rest
      end
    end
  end.

(** Method 2 (lines 66-71), from the state Method 1 left. *)
Definition method2 (st : probe_state) (p : Paragraph) : probe_state * bool :=
  if negb (has_ppt_bullet st) then
    match hasattr (p_runs p) with
    | Raise _ => (st, true)
    | Ok false => (st, false)
    | Ok true =>
      match p_runs p with
      | Raise _ => (st, true)
      | Ok runs =>
        match runs_loop runs with
        | None => (st, true)
        | Some true =>
          ({| has_ppt_bullet := true; original_bullet := original_bullet st |},
           false)
        | Some false => (st, false)
        end
      end
    end
  else (st, false).

(** The [try] block of lines 52-74; [except Exception: pass] keeps the
    variables as they were when the exception was raised. *)
Definition bullet_probe (p : Paragraph) : probe_state :=
  let '(st1, raised) := method1 p in
  if raised then st1 else fst (method2 st1 p).

(** Lines 78-84: the first bullet character the text starts with. *)
Definition text_bullet (text : pystr) : option pystr :=
  find (startswith text) bullet_chars.

(** Lines 104-109: the stripped texts of the non-empty paragraphs before
    the current one. [before] is [all_paragraphs[:current_index]]. *)
Definition prev_texts_of (before : list Paragraph) : list pystr :=
  filter truthy (map (fun q => strip (p_text q)) before).

(** Lines 112-116 *)
Definition context_condition (prev_texts : list pystr) (text : pystr) : bool :=
  match last_opt prev_texts with
  | None => false
  | Some prev =>
    (List.length (split_ws prev) <=? 3)%nat
    && negb (endswith prev colon)
    && (2 <? List.length (split_ws text))%nat
    && any (fun keyword => contains (lower text) keyword) context_keywords
  end.

(** Lines 125-126 *)
Definition slide2_condition (text : pystr) : bool :=
  any (fun pattern => contains (lower text) pattern) slide2_patterns.

(** The body of the loop for one non-empty paragraph, up to line 127:
    the final [original_bullet] and [text]. [context] is
    [Some all_paragraphs[:current_index]] when line 102 finds the
    paragraph, and [None] when [index] raises [ValueError]: the handler of
    line 119 then skips the rule. *)
Definition resolve_paragraph (context : option (list Paragraph))
    (p : Paragraph) : pystr * pystr :=
  let level := p_level p in
  let text0 := strip (p_text p) in
  let st := bullet_probe p in
  let ob0 := original_bullet st in
  (* lines 77-84 *)
  let '(ob1, text) :=
    match text_bullet text0 with
    | Some bullet_char =>
      (if truthy ob0 then ob0 else bullet_char ++ space,
       strip (skipn (List.length bullet_char) text0))
    | None => (ob0, text0)
    end in
  (* lines 87-89 *)
  let ob2 :=
    if has_ppt_bullet st && negb (truthy ob1) then level_bullet level else ob1 in
  (* lines 92-94 *)
  let ob3 :=
    if negb (truthy ob2) && (0 <? level)%nat then level_bullet level else ob2 in
  (* lines 98-121 *)
  let ob4 :=
    if negb (truthy ob3) && (level =? 0)%nat then
      match context with
      | Some before =>
        if context_condition (prev_texts_of before) text then dot_bullet
        else ob3
      | None => ob3
      end
    else ob3 in
  (* lines 124-127 *)
  let ob5 :=
    if negb (truthy ob4) && (level =? 0)%nat then
      if slide2_condition text then dot_bullet else ob4
    else ob4 in
  (ob5, text).

(** ["  " * level] *)
Definition indent_of (level : nat) : pystr := repeat_str (space ++ space) level.

(** Line 129 *)
Definition format_paragraph (context : option (list Paragraph))
    (p : Paragraph) : pystr :=
  let '(glyph, text) := resolve_paragraph context p in
  indent_of (p_level p) ++ glyph ++ text.

(** What lines 101-102 give for the paragraph that follows [before] in
    the frame. *)
Definition context_of (finds : bool) (before : list Paragraph)
  : option (list Paragraph) :=
  if finds then Some before else None.

(** The loop of line 40 over the paragraphs [ps] that follow [before]. *)
Fixpoint structured_loop (finds : bool) (before ps : list Paragraph)
  : list pystr :=
  match ps with
  | [] => []
  | p :: rest =>
    (if truthy (strip (p_text p))
     then [format_paragraph (context_of finds before) p]
     else [])
    ++ structured_loop finds (before ++ [p]) rest
  end.

Definition structured_lines (tf : TextFrame) : list pystr :=
  structured_loop (index_finds tf) [] (paragraphs tf).

(** *** [extract_text_from_shape], the flat text (lines 133-194) *)

(** Lines 159-178: [should_be_bullet]. *)
Definition should_be_bullet (preceding_lines : list pystr)
    (stripped_line : pystr) : bool :=
  let several_words := (1 <? List.length (split_ws stripped_line))%nat in
  let no_colon := negb (endswith stripped_line colon) in
  let prev := last_opt preceding_lines in
  (* Case 1 *)
  if match prev with
     | Some l =>
       (endswith l colon || (List.length (split_ws l) <=? 3)%nat)
       && several_words && no_colon
     | None => false
     end
  then true
  (* Case 2 *)
  else if match prev with
          | Some l =>
            any (startswith l) bullet_chars && several_words && no_colon
          | None => false
          end
  then true
  (* Case 3 *)
  else if several_words && no_colon
          && (match stripped_line with
              | c :: _ => isupper c
              | [] => false
              end
              || any (fun word => contains (lower stripped_line) word)
                   flat_keywords)
  then true
  else false.

(** Line 141: [(len(line) - len(stripped_line)) // 2] *)
Definition indent_level_of (line : pystr) : nat :=
  ((List.length line - List.length (lstrip line)) / 2)%nat.

(** The body of the loop for one line that is not blank (lines 140-194):
    the line appended to [text_content]. *)
Definition flat_line (text_content : list pystr) (line : pystr) : pystr :=
  let stripped_line := lstrip line in
  let indent_level := indent_level_of line in
  let has_existing_bullet := any (startswith stripped_line) bullet_chars in
  if has_existing_bullet then stripped_line
  else
    let preceding_lines := filter (fun l => truthy (strip l)) text_content in
    if should_be_bullet preceding_lines stripped_line then
      let indent := indent_of indent_level in
      let bullet :=
        if (indent_level =? 0)%nat then dot_bullet
        else if (indent_level =? 1)%nat then ring_bullet
        else square_bullet in
      indent ++ bullet ++ stripped_line
    else stripped_line.

(** The loop of line 134 over [lines], from the [text_content] built so
    far. *)
Fixpoint flat_loop (lines : list pystr) (text_content : list pystr)
  : list pystr :=
  match lines with
  | [] => text_content
  | raw_line :: rest =>
    let line := rstrip raw_line in
    if negb (truthy (strip line)) then flat_loop rest text_content
    else flat_loop rest (text_content ++ [flat_line text_content line])
  end.

(** Lines 133-194 for [shape.text]. *)
Definition flat_lines (shape_text : pystr) : list pystr :=
  flat_loop (split_on 10 shape_text) [].

(** *** [extract_text_from_shape], the paragraphs after the flat text
    (lines 196-281) *)

(** The [try] block of lines 207-240 with its handler. *)
Definition bullet_probe2 (p : Paragraph) (text : pystr) : probe_state :=
  let level := p_level p in
  let on_error (st : probe_state) :=
    if (0 <? level)%nat
    then {| has_ppt_bullet := true; original_bullet := original_bullet st |}
    else st in
  let '(st1, raised1) := method1 p in
  if raised1 then on_error st1
  else
    let '(st2, raised2) := method2 st1 p in
    if raised2 then on_error st2
    else
      (* Method 3 *)
      if negb (has_ppt_bullet st2) && (0 <? level)%nat then
        if negb (any (startswith text) numbered_prefixes)
        then {| has_ppt_bullet := true; original_bullet := original_bullet st2 |}
        else st2
      else st2.

(** Lines 198-280 for one non-empty paragraph. *)
Definition resolve_paragraph2 (p : Paragraph) : pystr * pystr :=
  let level := p_level p in
  let text0 := strip (p_text p) in
  let st := bullet_probe2 p text0 in
  let ob0 := original_bullet st in
  (* lines 243-265 *)
  let '(has_text_bullet, ob1, text) :=
    match text_bullet text0 with
    | Some bullet_char => (true, bullet_char ++ space, strip (skipn 1 text0))
    | None => (false, ob0, text0)
    end in
  (* lines 268-277 *)
  let ob2 :=
    if negb has_text_bullet && (has_ppt_bullet st || (0 <? level)%nat)
       && negb (truthy ob1)
    then
      if (level =? 0)%nat then dot_bullet
      else if (level =? 1)%nat then ring_bullet
      else if (level =? 2)%nat then square_bullet
      else dash_bullet
    else ob1 in
  (ob2, text).

Definition format_paragraph2 (p : Paragraph) : pystr :=
  let '(glyph, text) := resolve_paragraph2 p in
  indent_of (p_level p) ++ glyph ++ text.

(** The loop of line 196. *)
Definition trailing_lines (tf : TextFrame) : list pystr :=
  flat_map
    (fun p => if truthy (strip (p_text p)) then [format_paragraph2 p] else [])
    (paragraphs tf).

(** *** [extract_text_from_shape] *)

Definition extract_text_from_shape (shape : Shape) : result (list pystr) :=
  match hasattr (text_frame shape) with
  | Raise e => Raise e
  | Ok has_tf =>
    if has_tf
       && match text_frame shape with
          | Ok (Some tf) => tf_bool tf
          | _ => false
          end
    then
      match text_frame shape with
      | Ok (Some tf) => Ok (structured_lines tf)
      | Ok None => Ok []
      | Raise e => Raise e
      end
    else
      match hasattr (text shape) with
      | Raise e => Raise e
      | Ok false => Ok []
      | Ok true =>
        match text shape with
        | Raise e => Raise e
        | Ok shape_text =>
          if truthy (strip shape_text) then
            let text_content := flat_lines shape_text in
            (* line 196: shape.text_frame.paragraphs *)
            match text_frame shape with
            | Raise e => Raise e
            | Ok None => Raise (AttributeError none_has_no_paragraphs)
            | Ok (Some tf) => Ok (text_content ++ trailing_lines tf)
            end
          else Ok []
        end
      end
  end.

(** *** [extract_slide_text], the description of a picture (lines 333-383) *)

(** Lines 344-349 and 356-361: the attribute of the first [cNvPr]
    element that has it and not blank. The loop is left without a value
    when [el.tag.endswith] raises on a tag that is not a string. *)
Fixpoint find_cNvPr_attr (get : XmlElement -> option pystr)
    (els : list XmlElement) : option pystr :=
  match els with
  | [] => None
  | el :: rest =>
    match el_tag el with
    | None => None
    | Some tag =>
      if endswith tag cNvPr then
        match get el with
        | Some v =>
          if truthy v && truthy (strip v) then Some v
          else find_cNvPr_attr get rest
        | None => find_cNvPr_attr get rest
        end
      else find_cNvPr_attr get rest
    end
  end.

(** Lines 343-351 and 355-363, with their [except Exception: pass]. *)
Definition xml_method (get : XmlElement -> option pystr) (shape : Shape)
    (alt : pystr) : pystr :=
  if negb (truthy alt) then
    match element_iter shape with
    | Raise _ => alt
    | Ok els =>
      match find_cNvPr_attr get els with
      | Some v => v
      | None => alt
      end
    end
  else alt.

(** [hasattr(shape, a) and shape.a] for a string attribute: the value
    when it is there and not empty. *)
Definition attr_if_truthy (x : result pystr) : result (option pystr) :=
  match hasattr x with
  | Raise e => Raise e
  | Ok false => Ok None
  | Ok true =>
    match x with
    | Ok v => if truthy v then Ok (Some v) else Ok None
    | Raise e => Raise e
    end
  end.

(** Lines 336-339. [None] when an exception leaves the outer [try]. *)
Definition alt_method1 (shape : Shape) : option pystr :=
  match attr_if_truthy (description shape) with
  | Raise _ => None
  | Ok (Some d) => Some d
  | Ok None =>
    match attr_if_truthy (alt_text shape) with
    | Raise _ => None
    | Ok (Some a) => Some a
    | Ok None => Some []
    end
  end.

(** Lines 366-370. [None] when an exception leaves the outer [try]. *)
Definition alt_method4 (shape : Shape) (alt : pystr) : option pystr :=
  if negb (truthy alt) then
    match attr_if_truthy (name shape) with
    | Raise _ => None
    | Ok None => Some alt
    | Ok (Some shape_name) =>
      let name := strip shape_name in
      if negb (any (startswith name) generic_names) then Some name
      else Some alt
    end
  else Some alt.

(** The [try] block of lines 334-375: the final [alt_text]. An exception
    leaves it as the last assignment made it ([except Exception: pass]);
    only Method 1 and Method 4 can let one out, and both do before they
    assign. *)
Definition probe_alt_text (shape : Shape) : pystr :=
  match alt_method1 shape with
  | None => []
  | Some alt1 =>
    let alt2 := xml_method el_descr shape alt1 in
    let alt3 := xml_method el_title shape alt2 in
    match alt_method4 shape alt3 with
    | None => alt3
    | Some alt4 => alt4
    end
  end.

(** Lines 333-383: the string appended to [slide_content['images']], when
    [n_images] are there already. *)
Definition image_description (shape : Shape) (n_images : nat) : result pystr :=
  let alt := probe_alt_text shape in
  if truthy alt && truthy (strip alt) then Ok (strip alt)
  else
    match getattr_default (name shape)
            (image_prefix ++ str_of_nat (n_images + 1)) with
    | Raise e => Raise e
    | Ok fallback_name => Ok (no_alt_text ++ fallback_name)
    end.

(** *** [extract_slide_text] *)

(** Lines 302-307: the title a shape sets, if it sets one. Any exception
    is dropped by the bare [except]. *)
Definition title_of_shape (shape : Shape) : option pystr :=
  match hasattr (placeholder_format shape) with
  | Ok true =>
    match placeholder_format shape with
    | Ok (Some idx) =>
      if idx =? 0 then
        match hasattr (text shape) with
        | Ok true =>
          match text shape with
          | Ok t => if truthy (strip t) then Some (strip t) else None
          | Raise _ => None
          end
        | _ => None
        end
      else None
    | _ => None
    end
  | _ => None
  end.

(** The loop of lines 300-310 from the title found so far. *)
Definition title_loop (shapes : list Shape) (title0 : pystr) : pystr :=
  fold_left
    (fun t shape =>
       match title_of_shape shape with
       | Some t' => t'
       | None => t
       end) shapes title0.

(** Lines 317-325 *)
Definition is_title_placeholder (shape : Shape) : bool :=
  match hasattr (placeholder_format shape) with
  | Ok true =>
    match placeholder_format shape with
    | Ok (Some idx) => idx =? 0
    | _ => false
    end
  | _ => false
  end.

Definition add_image (sc : SlideRecord) (d : pystr) : SlideRecord :=
  {| title := title sc; content := content sc; notes := notes sc;
     images := images sc ++ [d] |}.

Definition add_content (sc : SlideRecord) (ls : list pystr) : SlideRecord :=
  {| title := title sc; content := content sc ++ ls; notes := notes sc;
     images := images sc |}.

(** The [try] block of lines 315-387 for one shape. [slide_content] is
    only changed by the last statement of a branch, so an exception
    leaves it as it was. *)
Definition process_shape (shape : Shape) (sc : SlideRecord)
  : result SlideRecord :=
  if is_title_placeholder shape then Ok sc
  else
    match shape_type shape with
    | Raise e => Raise e
    | Ok t =>
      if is_PICTURE t then
        match image_description shape (List.length (images sc)) with
        | Raise e => Raise e
        | Ok d => Ok (add_image sc d)
        end
      else
        match extract_text_from_shape shape with
        | Raise e => Raise e
        | Ok shape_text => Ok (add_content sc shape_text)
        end
    end.

(** Line 390 *)
Definition warning (e : exn) : pystr := warning_prefix ++ exn_str e.

(** The loop of lines 314-391: [slide_content] and the lines printed. *)
Fixpoint content_loop (shapes : list Shape) (sc : SlideRecord)
    (printed : list pystr) : SlideRecord * list pystr :=
  match shapes with
  | [] => (sc, printed)
  | shape :: rest =>
    match process_shape shape sc with
    | Ok sc' => content_loop rest sc' printed
    | Raise e => content_loop rest sc (printed ++ [warning e])
    end
  end.

Definition empty_record : SlideRecord :=
  {| title := []; content := []; notes := []; images := [] |}.

Definition extract_slide_text (slide : Slide) : SlideRecord * list pystr :=
  let shape_list := match shapes slide with Some l => l | None => [] end in
  let sc1 :=
    {| title := title_loop shape_list []; content := []; notes := [];
       images := [] |} in
  let '(sc2, printed) := content_loop shape_list sc1 [] in
  let notes_value :=
    match notes_text slide with
    | Some t => if truthy (strip t) then strip t else []
    | None => []
    end in
  ({| title := title sc2; content := content sc2; notes := notes_value;
      images := images sc2 |}, printed).

End Script.

(** ** The report: [format_slide_output], [extract_powerpoint_text], [main] *)

(** [sep.join(parts)] *)
Fixpoint str_join (sep : pystr) (parts : list pystr) : pystr :=
  match parts with
  | [] => []
  | [x] => x
  | x :: rest => x ++ sep ++ str_join sep rest
  end.

Definition newline : pystr := [10].
Definition slide_header_prefix : pystr := Eval cbv in py "=== SLIDE ".
Definition slide_header_suffix : pystr := Eval cbv in py " ===".
Definition title_header : pystr := Eval cbv in py "Title:".
Definition content_header : pystr := Eval cbv in py "Content:".
Definition images_header : pystr := Eval cbv in py "Images:".
Definition notes_header : pystr := Eval cbv in py "Notes:".
Definition image_label : pystr := Eval cbv in py "Image ".
Definition colon_space : pystr := Eval cbv in py ": ".
Definition dot_pptx : pystr := Eval cbv in py ".pptx".

(** Lines 425-426: [enumerate(slide_data['images'], i)] *)
Fixpoint image_lines (i : nat) (alts : list pystr) : list pystr :=
  match alts with
  | [] => []
  | alt_text :: rest =>
    (image_label ++ str_of_nat i ++ colon_space ++ alt_text)
    :: image_lines (S i) rest
  end.

(** [output_lines] of [format_slide_output] (lines 404-433). *)
Definition output_lines (slide_num : nat) (slide_data : SlideRecord)
  : list pystr :=
  [slide_header_prefix ++ str_of_nat slide_num ++ slide_header_suffix]
  ++ (if truthy (title slide_data)
      then [title_header; title slide_data; []] else [])
  ++ (match content slide_data with
      | [] => []
      | _ :: _ => [content_header] ++ content slide_data ++ [[]]
      end)
  ++ (match images slide_data with
      | [] => []
      | _ :: _ => [images_header] ++ image_lines 1 (images slide_data) ++ [[]]
      end)
  ++ (if truthy (notes slide_data)
      then [notes_header; notes slide_data; []] else []).

(** Line 435 *)
Definition format_slide_output (slide_num : nat) (slide_data : SlideRecord)
  : pystr :=
  str_join newline (output_lines slide_num slide_data).

(** An exception that [extract_slide_text] lets out: its two loops catch
    what a shape raises, but reading [slide.shapes] (lines 299-300; an
    exception other than the [AttributeError] that [hasattr] takes) and
    reading the notes (lines 394-397) are outside every handler of the
    function. *)
Inductive SlideFault :=
| NoFault
| ShapesFault (e : exn)
| NotesFault (e : exn).

(** A slide of a loaded deck: what is read from it, and the exception
    reading it raises, if any. With [ShapesFault] the shapes of
    [the_slide] are never reached, with [NotesFault] its notes are not. *)
Record LoadedSlide := {
  the_slide : Slide;
  fault : SlideFault
}.

(** What [extract_powerpoint_text] meets outside: [os.path.exists], the
    slides of [Presentation(pptx_file)] or the exception it raises, and
    the outcome of writing a text to a file ([None] when it succeeds). *)
Record World := {
  path_exists : pystr -> bool;
  load_slides : pystr -> result (list LoadedSlide);
  write_file : pystr -> pystr -> option exn
}.

(** What a run leaves: the value returned, the strings printed (one per
    [print]) and the files whose writing succeeded, with their content. *)
Record Outcome := {
  returned : bool;
  printed : list pystr;
  written : list (pystr * pystr)
}.

(** The fixed parts of the messages. *)
Definition lit_file_open : pystr := Eval cbv in py "Error: File '".
Definition lit_not_found : pystr := Eval cbv in py "' not found.".
Definition lit_processing : pystr := Eval cbv in py "Processing '".
Definition lit_with : pystr := Eval cbv in py "' with ".
Definition lit_slides : pystr := Eval cbv in py " slides...".
Definition lit_processing_slide : pystr := Eval cbv in py "Processing slide ".
Definition lit_dots : pystr := Eval cbv in py "...".
Definition lit_saved : pystr := Eval cbv in py "Text extracted and saved to '".
Definition lit_quote : pystr := Eval cbv in py "'".
Definition lit_error : pystr :=
  Eval cbv in py "Error processing PowerPoint file: ".
Definition lit_extracted : pystr := Eval cbv in py "EXTRACTED TEXT:".
Definition lit_equals : pystr := Eval cbv in py "=".

Definition not_found_message (pptx_file : pystr) : pystr :=
  lit_file_open ++ pptx_file ++ lit_not_found.

Definition processing_message (pptx_file : pystr) (n : nat) : pystr :=
  lit_processing ++ pptx_file ++ lit_with ++ str_of_nat n ++ lit_slides.

Definition processing_slide_message (slide_num : nat) : pystr :=
  lit_processing_slide ++ str_of_nat slide_num ++ lit_dots.

Definition saved_message (output_file : pystr) : pystr :=
  lit_saved ++ output_file ++ lit_quote.

Definition error_message (e : exn) : pystr := lit_error ++ exn_str e.

Definition rule_50 : pystr := repeat_str lit_equals 50.

Definition console_banner : list pystr :=
  [newline ++ rule_50; lit_extracted; rule_50].

Definition usage_messages : list pystr :=
  Eval cbv in
  [py "Usage: python Extract-PowerPointText.py input.pptx [output.txt]";
   [10] ++ py "This script extracts text from PowerPoint presentations.";
   py "If no output file is specified, results are printed to console."].

Definition extension_message : pystr :=
  Eval cbv in py "Error: Input file must be a .pptx file".

Section Report.

Variable unicode_lower : pystr -> N -> pystr -> pystr.
Variable unicode_isupper : N -> bool.

(** The loop of lines 453-457 from the slide number [slide_num], over
    slides that are read without exception: [all_output] and the strings
    printed. *)
Fixpoint slides_loop (slide_num : nat) (slides : list Slide)
  : list pystr * list pystr :=
  match slides with
  | [] => ([], [])
  | slide :: rest =>
    let '(slide_data, warnings) :=
      extract_slide_text unicode_lower unicode_isupper slide in
    let formatted_output := format_slide_output slide_num slide_data in
    let '(all_output, later) := slides_loop (S slide_num) rest in
    (formatted_output :: all_output,
     [processing_slide_message slide_num] ++ warnings ++ later)
  end.

(** The loop of lines 453-457 over the slides of a loaded deck:
    [all_output], the strings printed, and the exception that ended the
    loop, if one did. A slide whose shapes cannot be read raises before
    anything is printed for its shapes; a slide whose notes cannot be read
    raises after the warnings of its shapes are printed. *)
Fixpoint deck_loop (slide_num : nat) (slides : list LoadedSlide)
  : list pystr * list pystr * option exn :=
  match slides with
  | [] => ([], [], None)
  | loaded :: rest =>
    match fault loaded with
    | ShapesFault e => ([], [processing_slide_message slide_num], Some e)
    | NotesFault e =>
      ([],
       [processing_slide_message slide_num]
       ++ snd (extract_slide_text unicode_lower unicode_isupper
                 (the_slide loaded)),
       Some e)
    | NoFault =>
      let '(slide_data, warnings) :=
        extract_slide_text unicode_lower unicode_isupper (the_slide loaded) in
      let formatted_output := format_slide_output slide_num slide_data in
      let '(all_output, later, raised) := deck_loop (S slide_num) rest in
      (formatted_output :: all_output,
       [processing_slide_message slide_num] ++ warnings ++ later, raised)
    end
  end.

(** [extract_powerpoint_text] (lines 438-477). [output_file] is [None]
    for the default. The [try] block of lines 445-477 turns every
    exception into the error message and [False]: loading the
    presentation, reading a slide, writing the file. *)
Definition extract_powerpoint_text (w : World) (pptx_file : pystr)
    (output_file : option pystr) : Outcome :=
  if negb (path_exists w pptx_file) then
    {| returned := false; printed := [not_found_message pptx_file];
       written := [] |}
  else
    match load_slides w pptx_file with
    | Raise e =>
      {| returned := false; printed := [error_message e]; written := [] |}
    | Ok slides =>
      let '(all_output, progress, raised) := deck_loop 1 slides in
      let final_output := str_join newline all_output in
      let so_far :=
        [processing_message pptx_file (List.length slides)] ++ progress in
      match raised with
      | Some e =>
        {| returned := false; printed := so_far ++ [error_message e];
           written := [] |}
      | None =>
      match output_file with
      | Some out =>
        if truthy out then
          match write_file w out final_output with
          | Some e =>
            {| returned := false; printed := so_far ++ [error_message e];
               written := [] |}
          | None =>
            {| returned := true; printed := so_far ++ [saved_message out];
               written := [(out, final_output)] |}
          end
        else
          {| returned := true;
             printed := so_far ++ console_banner ++ [final_output];
             written := [] |}
      | None =>
        {| returned := true;
           printed := so_far ++ console_banner ++ [final_output];
           written := [] |}
      end
      end
    end.

(** [main] (lines 480-500) on [sys.argv]: the exit status, the strings
    printed and the files written. *)
Definition main (w : World) (argv : list pystr)
  : nat * list pystr * list (pystr * pystr) :=
  match argv with
  | [] | [_] => (1%nat, usage_messages, [])
  | _ :: input_file :: more =>
    let output_file :=
      match more with
      | out :: _ => Some out
      | [] => None
      end in
    if negb (endswith (lower unicode_lower input_file) dot_pptx) then
      (1%nat, [extension_message], [])
    else
      let o := extract_powerpoint_text w input_file output_file in
      ((if returned o then 0 else 1)%nat, printed o, written o)
  end.

End Report.

(** ** The specification's wording, for comparison *)

(** The continuation condition as the specification words it (4.1, step
    5): the preceding rendered line is short and has no final colon while
    the current text has more than two words and no final colon, or the
    preceding line carries a bullet glyph. *)
Definition spec_structural_condition (prev_line : option pystr)
    (text : pystr) : bool :=
  match prev_line with
  | None => false
  | Some l =>
    ((List.length (split_ws l) <=? 3)%nat && negb (endswith l colon)
     && (2 <? List.length (split_ws text))%nat && negb (endswith text colon))
    || any (startswith (lstrip l)) bullet_chars
  end.

(** The string is not empty and does not start with white space. *)
Definition starts_nonspace (s : pystr) : Prop :=
  match s with
  | [] => False
  | c :: _ => isspace c = false
  end.

(** Length of the white-space run a line starts with. *)
Definition leading_ws (line : pystr) : nat :=
  (List.length line - List.length (lstrip line))%nat.

(** The paragraph's explicit bullet glyph: the [char] of its [a:buChar]. *)
Definition explicit_glyph (p : Paragraph) : option pystr :=
  match p_pPr p with
  | Ok (Some ppr) =>
    match buChar ppr with
    | Some (Some char) => Some char
    | _ => None
    end
  | _ => None
  end.


(** Lines 99-121 as a whole: the rule of lines 112-116 when the context
    could be read. *)
Definition context_rule (ul : pystr -> N -> pystr -> pystr)
    (context : option (list Paragraph)) (text : pystr) : bool :=
  match context with
  | Some before => context_condition ul (prev_texts_of before) text
  | None => false
  end.

(** The record with another title. *)
Definition with_title (t : pystr) (sc : SlideRecord) : SlideRecord :=
  {| title := t; content := content sc; notes := notes sc;
     images := images sc |}.

(** The slide with other shapes. *)
Definition with_shapes (slide : Slide) (l : list Shape) : Slide :=
  {| shapes := Some l; notes_text := notes_text slide |}.

(** A picture without any source of alt text: no description and no
    [alt_text] attribute (or empty ones), no [cNvPr] element with a
    [descr] or [title] that is not blank, and a name that is missing,
    empty, blank or generic. *)
Definition no_alt_sources (shape : Shape) : Prop :=
  attr_if_truthy (description shape) = Ok None
  /\ attr_if_truthy (alt_text shape) = Ok None
  /\ (forall els, element_iter shape = Ok els ->
        find_cNvPr_attr el_descr els = None
        /\ find_cNvPr_attr el_title els = None)
  /\ (forall n, name shape = Ok n ->
        strip n = [] \/ any (startswith (strip n)) generic_names = true).

(** ** Auxiliary notions for the properties *)

(** Line 41: the paragraph is rendered. *)
Definition nonblank (p : Paragraph) : bool := truthy (strip (p_text p)).

(** The frame without its paragraphs of white space. *)
Definition drop_blank (tf : TextFrame) : TextFrame :=
  {| tf_bool := tf_bool tf; index_finds := index_finds tf;
     paragraphs := filter nonblank (paragraphs tf) |}.

(** The paragraph with no [a:pPr] and no runs. *)
Definition without_metadata (p : Paragraph) : Paragraph :=
  {| p_text := p_text p; p_level := p_level p; p_pPr := Ok None;
     p_runs := Ok [] |}.

(** Line 136: the source line is kept. *)
Definition nonblank_line (raw_line : pystr) : bool :=
  truthy (strip (rstrip raw_line)).

(** The code point is not white space. *)
Definition visible (c : N) : bool := negb (isspace c).

(** A picture whose description, [alt_text] and [cNvPr] attributes give
    nothing: only its name is left as a source. *)
Definition only_name_left (shape : Shape) : Prop :=
  attr_if_truthy (description shape) = Ok None
  /\ attr_if_truthy (alt_text shape) = Ok None
  /\ (forall els, element_iter shape = Ok els ->
        find_cNvPr_attr el_descr els = None
        /\ find_cNvPr_attr el_title els = None).

(** What a shape processed on its own gives: its content lines, its
    image entries and its warning. *)
Definition lines_alone (ul : pystr -> N -> pystr -> pystr) (iu : N -> bool)
    (shape : Shape) : list pystr :=
  match process_shape ul iu shape empty_record with
  | Ok sc => content sc
  | Raise _ => []
  end.

Definition images_alone (ul : pystr -> N -> pystr -> pystr) (iu : N -> bool)
    (shape : Shape) : list pystr :=
  match process_shape ul iu shape empty_record with
  | Ok sc => images sc
  | Raise _ => []
  end.

Definition warnings_alone (ul : pystr -> N -> pystr -> pystr)
    (iu : N -> bool) (shape : Shape) : list pystr :=
  match process_shape ul iu shape empty_record with
  | Ok _ => []
  | Raise e => [warning e]
  end.

(** The text of the report for the slides of a deck (line 460). *)
Definition report_text (ul : pystr -> N -> pystr -> pystr) (iu : N -> bool)
    (slides : list Slide) : pystr :=
  str_join newline (fst (slides_loop ul iu 1 slides)).

(** The first line of a slide's block. *)
Definition slide_header (slide_num : nat) : pystr :=
  slide_header_prefix ++ str_of_nat slide_num ++ slide_header_suffix.

(** [ext] is ".pptx" in some mix of ASCII upper and lower case. *)
Definition pptx_extension (ext : pystr) : Prop :=
  Forall (fun c => c < 128) ext
  /\ map (fun c => if (65 <=? c) && (c <=? 90) then c + 32 else c) ext
     = dot_pptx.

(** A list of lines that ends with an empty line after at least one
    other line. *)
Definition ends_blank (l : list pystr) : Prop :=
  exists y ys, l = (y :: ys) ++ [[]].

(** ** Sample inputs *)

Module Sample.

(** Tables for code points without case: [lower] leaves them alone and
    [isupper] is false. *)
Definition caseless_lower (_ : pystr) (c : N) (_ : pystr) : pystr := [c].
Definition caseless_isupper (_ : N) : bool := false.

Definition no_ppr : PPr :=
  {| buChar := None; buAutoNum := false; buBlip := false; buFont := false;
     buNone := false |}.

(** A paragraph without [a:pPr] and without runs that carry a marker. *)
Definition plain (t : string) (level : nat) : Paragraph :=
  {| p_text := py t; p_level := level; p_pPr := Ok None; p_runs := Ok [] |}.

(** A paragraph with [<a:buChar char=c/>]. *)
Definition with_buChar (t : string) (level : nat) (c : string) : Paragraph :=
  {| p_text := py t; p_level := level;
     p_pPr := Ok (Some {| buChar := Some (Some (py c)); buAutoNum := false;
                          buBlip := false; buFont := false; buNone := false |});
     p_runs := Ok [] |}.

(** A paragraph with [<a:buNone/>]. *)
Definition with_buNone (t : string) (level : nat) : Paragraph :=
  {| p_text := py t; p_level := level;
     p_pPr := Ok (Some {| buChar := None; buAutoNum := false; buBlip := false;
                          buFont := false; buNone := true |});
     p_runs := Ok [] |}.

Definition not_a_placeholder : exn :=
  ValueError (py "shape is not a placeholder").

Definition no_attribute (a : string) : exn :=
  AttributeError (py a).

(** ["\n".join(texts)] *)
Fixpoint join_lines (texts : list pystr) : pystr :=
  match texts with
  | [] => []
  | [t] => t
  | t :: rest => t ++ [10] ++ join_lines rest
  end.

(** An auto shape with a text frame. *)
Definition text_shape (ps : list Paragraph) : Shape :=
  {| placeholder_format := Raise not_a_placeholder;
     shape_type := Ok AUTO_SHAPE;
     text_frame := Ok (Some {| tf_bool := true; index_finds := false; paragraphs := ps |});
     text := Ok (join_lines (map p_text ps));
     description := Raise (no_attribute "description");
     alt_text := Raise (no_attribute "alt_text");
     element_iter := Ok [];
     name := Ok (py "Content 2") |}.

(** A shape with a text and no [text_frame] attribute. *)
Definition flat_shape (t : pystr) : Shape :=
  {| placeholder_format := Raise not_a_placeholder;
     shape_type := Ok OTHER_SHAPE;
     text_frame := Raise (no_attribute "text_frame");
     text := Ok t;
     description := Raise (no_attribute "description");
     alt_text := Raise (no_attribute "alt_text");
     element_iter := Ok [];
     name := Ok (py "Flat 3") |}.

(** A shape with the text [t] whose text frame is false as a truth value
    and has no paragraph. *)
Definition empty_frame_shape (t : pystr) : Shape :=
  {| placeholder_format := Raise not_a_placeholder;
     shape_type := Ok OTHER_SHAPE;
     text_frame :=
       Ok (Some {| tf_bool := false; index_finds := false; paragraphs := [] |});
     text := Ok t;
     description := Raise (no_attribute "description");
     alt_text := Raise (no_attribute "alt_text");
     element_iter := Ok [];
     name := Ok (py "Flat 5") |}.

(** A title placeholder (index 0) with the text [t]. *)
Definition title_shape (t : string) : Shape :=
  {| placeholder_format := Ok (Some 0);
     shape_type := Ok PLACEHOLDER;
     text_frame :=
       Ok (Some {| tf_bool := true; index_finds := false;
                   paragraphs := [plain t 0%nat] |});
     text := Ok (py t);
     description := Raise (no_attribute "description");
     alt_text := Raise (no_attribute "alt_text");
     element_iter := Ok [];
     name := Ok (py "Title 1") |}.

(** A picture named [n], with an empty description and a [cNvPr] element
    whose [descr] and [title] are empty. *)
Definition picture (n : string) : Shape :=
  {| placeholder_format := Raise not_a_placeholder;
     shape_type := Ok PICTURE;
     text_frame := Raise (no_attribute "text_frame");
     text := Raise (no_attribute "text");
     description := Ok [];
     alt_text := Raise (no_attribute "alt_text");
     element_iter :=
       Ok [{| el_tag :=
                Some (py "{http://schemas.openxmlformats.org/presentationml/2006/main}cNvPr");
              el_descr := Some []; el_title := Some [] |}];
     name := Ok (py n) |}.

(** A shape whose type cannot be read. *)
Definition broken_shape : Shape :=
  {| placeholder_format := Raise not_a_placeholder;
     shape_type := Raise (OtherException (py "corrupt shape"));
     text_frame := Raise (no_attribute "text_frame");
     text := Raise (no_attribute "text");
     description := Raise (no_attribute "description");
     alt_text := Raise (no_attribute "alt_text");
     element_iter := Ok [];
     name := Ok (py "Broken 4") |}.

Definition slide_of (l : list Shape) : Slide :=
  {| shapes := Some l; notes_text := None |}.

(** The flat text of the specification's scenario C. *)
Definition scenario_C_text : pystr :=
  py "  - Item one" ++ [10] ++ py "Item two".

End Sample.

(** ** More sample inputs *)

Module SampleDeck.

(** A paragraph with [<a:buAutoNum/>]. *)
Definition with_autonum (t : string) (level : nat) : Paragraph :=
  {| p_text := py t; p_level := level;
     p_pPr := Ok (Some {| buChar := None; buAutoNum := true; buBlip := false;
                          buFont := false; buNone := false |});
     p_runs := Ok [] |}.

(** A paragraph whose properties cannot be read and whose run carries a
    bullet marker. *)
Definition unreadable (t : string) (level : nat) : Paragraph :=
  {| p_text := py t; p_level := level;
     p_pPr := Raise (ValueError (py "bad pPr"));
     p_runs := Ok [Ok true] |}.

(** A picture with the description [d], the metadata description
    [descr] and the name [n]. *)
Definition described_picture (d : result pystr) (descr n : string) : Shape :=
  {| placeholder_format := Raise Sample.not_a_placeholder;
     shape_type := Ok PICTURE;
     text_frame := Raise (Sample.no_attribute "text_frame");
     text := Raise (Sample.no_attribute "text");
     description := d;
     alt_text := Raise (Sample.no_attribute "alt_text");
     element_iter :=
       Ok [{| el_tag := Some (py "{http://schemas.openxmlformats.org/presentationml/2006/main}cNvPr");
              el_descr := Some (py descr); el_title := None |}];
     name := Ok (py n) |}.

(** A picture without description whose XML has a [cNvPr] element with a
    blank [descr], then one with the [descr] "Sales chart", then one with
    the [descr] "Later". *)
Definition three_cNvPr_picture : Shape :=
  {| placeholder_format := Raise Sample.not_a_placeholder;
     shape_type := Ok PICTURE;
     text_frame := Raise (Sample.no_attribute "text_frame");
     text := Raise (Sample.no_attribute "text");
     description := Raise (Sample.no_attribute "description");
     alt_text := Raise (Sample.no_attribute "alt_text");
     element_iter :=
       Ok ([{| el_tag := Some (py "{p}pic"); el_descr := None;
               el_title := None |};
            {| el_tag := Some (py "{p}cNvPr"); el_descr := Some (py "  ");
               el_title := Some (py "A title") |}]
           ++ {| el_tag := Some (py "{p}cNvPr");
                 el_descr := Some (py " Sales chart");
                 el_title := None |}
           :: [{| el_tag := Some (py "{a}cNvPr"); el_descr := Some (py "Later");
                  el_title := None |}]);
     name := Ok (py "Diagram") |}.

(** A slide of a deck that is read without exception. *)
Definition readable (slide : Slide) : LoadedSlide :=
  {| the_slide := slide; fault := NoFault |}.

(** A world with one deck, where files can be written. *)
Definition loaded_world (slides : list LoadedSlide) : World :=
  {| path_exists := fun _ => true;
     load_slides := fun _ => Ok slides;
     write_file := fun _ _ => None |}.

(** A world with one readable deck, where files can be written. *)
Definition deck_world (slides : list Slide) : World :=
  loaded_world (map readable slides).

(** A picture without [cNvPr] element whose name cannot be read. *)
Definition nameless_picture : Shape :=
  {| placeholder_format := Raise Sample.not_a_placeholder;
     shape_type := Ok PICTURE;
     text_frame := Raise (Sample.no_attribute "text_frame");
     text := Raise (Sample.no_attribute "text");
     description := Raise (Sample.no_attribute "description");
     alt_text := Raise (Sample.no_attribute "alt_text");
     element_iter := Ok [];
     name := Raise (OtherException (py "list index out of range")) |}.


(** A world without any file. *)
Definition empty_world : World :=
  {| path_exists := fun _ => false;
     load_slides := fun _ => Raise (OtherException (py "Package not found"));
     write_file := fun _ _ => Some (OtherException (py "Permission denied")) |}.

Definition two_slide_deck : list Slide :=
  [Sample.slide_of [Sample.title_shape "Intro";
                    Sample.text_shape [Sample.plain "Body" 0%nat]];
   Sample.slide_of [Sample.picture "Picture 3"]].

End SampleDeck.

(** ** Properties of the string operations *)

Lemma truthy_false_iff (s : pystr) : truthy s = false <-> s = [].
Proof. destruct s; simpl; split; congruence. Qed.

Lemma truthy_true_iff (s : pystr) : truthy s = true <-> s <> [].
Proof. destruct s; simpl; split; congruence. Qed.

Lemma truthy_app_r (s t : pystr) : truthy t = true -> truthy (s ++ t) = true.
Proof. destruct s; simpl; auto. Qed.

Lemma startswith_app (s p : pystr) :
  startswith s p = true -> s = p ++ skipn (List.length p) s.
Proof.
  revert s; induction p as [|c p IH]; intros s H; simpl in *.
  - reflexivity.
  - destruct s as [|d s]; [discriminate|].
    apply andb_true_iff in H as [Hc Hs].
    apply N.eqb_eq in Hc; subst d.
    simpl. f_equal. apply IH, Hs.
Qed.

(** [lstrip] removes a prefix of white space. *)
Lemma lstrip_suffix (s : pystr) :
  exists pre, s = pre ++ lstrip s /\ Forall (fun c => isspace c = true) pre.
Proof.
  induction s as [|c s [pre [E F]]]; simpl.
  - exists []; split; [reflexivity | constructor].
  - destruct (isspace c) eqn:Hc.
    + exists (c :: pre); split; [simpl; f_equal; exact E | constructor; assumption].
    + exists []; split; [reflexivity | constructor].
Qed.

Lemma lstrip_head (s : pystr) :
  match lstrip s with
  | [] => True
  | c :: _ => isspace c = false
  end.
Proof.
  induction s as [|c s IH]; simpl; [exact I|].
  destruct (isspace c) eqn:Hc; [exact IH | exact Hc].
Qed.

Lemma lstrip_fixed (s : pystr) :
  match s with [] => True | c :: _ => isspace c = false end -> lstrip s = s.
Proof. destruct s as [|c s]; simpl; [reflexivity|]. intros ->; reflexivity. Qed.

Lemma lstrip_idempotent (s : pystr) : lstrip (lstrip s) = lstrip s.
Proof. apply lstrip_fixed, lstrip_head. Qed.

(** The last code point of [lstrip s] is the last one of [s]. *)
Lemma rev_lstrip_head (s : pystr) :
  match rev s with [] => True | c :: _ => isspace c = false end ->
  match rev (lstrip s) with [] => True | c :: _ => isspace c = false end.
Proof.
  destruct (lstrip_suffix s) as [pre [E _]].
  intros H. rewrite E, rev_app_distr in H.
  destruct (rev (lstrip s)); [exact I | exact H].
Qed.

Lemma rstrip_fixed (s : pystr) :
  match rev s with [] => True | c :: _ => isspace c = false end -> rstrip s = s.
Proof.
  intros H. unfold rstrip. rewrite (lstrip_fixed _ H). apply rev_involutive.
Qed.

Lemma rstrip_last (s : pystr) :
  match rev (rstrip s) with [] => True | c :: _ => isspace c = false end.
Proof. unfold rstrip. rewrite rev_involutive. apply lstrip_head. Qed.

(** A stripped string stays as it is when stripped again: it is trimmed. *)
Lemma strip_idempotent (s : pystr) : strip (strip s) = strip s.
Proof.
  unfold strip at 1.
  assert (H : rstrip (strip s) = strip s).
  { apply rstrip_fixed. unfold strip. apply rev_lstrip_head, rstrip_last. }
  rewrite H. unfold strip. apply lstrip_idempotent.
Qed.

Lemma strip_head (s : pystr) :
  match strip s with [] => True | c :: _ => isspace c = false end.
Proof. unfold strip. apply lstrip_head. Qed.

Lemma length_repeat_str (s : pystr) (n : nat) :
  List.length (repeat_str s n) = (n * List.length s)%nat.
Proof. induction n; simpl; [reflexivity|]. rewrite length_app, IHn. lia. Qed.

Lemma existsb_any {A} (f : A -> bool) (xs : list A) :
  any f xs = true <-> exists x, In x xs /\ f x = true.
Proof. unfold any. apply existsb_exists. Qed.

(** ** Properties of the bullet resolver *)

Section Resolver.

Variable ul : pystr -> N -> pystr -> pystr.

Lemma length_indent_of (level : nat) :
  List.length (indent_of level) = (2 * level)%nat.
Proof. unfold indent_of. rewrite length_repeat_str. simpl. lia. Qed.

Lemma indent_of_spaces (level : nat) :
  Forall (fun c => c = 32) (indent_of level).
Proof.
  unfold indent_of. induction level; simpl; [constructor|].
  constructor; [reflexivity|]. constructor; [reflexivity | exact IHlevel].
Qed.

Lemma level_bullet_cases (level : nat) :
  level_bullet level =
  match level with
  | 0%nat => dot_bullet
  | 1%nat => ring_bullet
  | 2%nat => square_bullet
  | _ => dash_bullet
  end.
Proof. destruct level as [|[|[|n]]]; reflexivity. Qed.

Lemma level_bullet_truthy (level : nat) : truthy (level_bullet level) = true.
Proof. destruct level as [|[|[|n]]]; reflexivity. Qed.

Lemma text_bullet_in (text b : pystr) :
  text_bullet text = Some b -> In b bullet_chars /\ startswith text b = true.
Proof. unfold text_bullet. apply find_some. Qed.

Lemma bullet_char_truthy (b : pystr) : In b bullet_chars -> truthy (b ++ space) = true.
Proof. intros _. apply truthy_app_r. reflexivity. Qed.

(** What the probe leaves in [original_bullet]: the explicit glyph and a
    space, or nothing. *)
Lemma original_bullet_probe (p : Paragraph) :
  original_bullet (bullet_probe p) =
  match explicit_glyph p with
  | Some char => char ++ space
  | None => []
  end.
Proof.
  unfold bullet_probe, explicit_glyph, method1, method2.
  destruct (p_pPr p) as [[ppr|]|[m|m|m]]; simpl;
    try reflexivity.
  - destruct (has_bullet_element ppr) eqn:Hb; simpl.
    + destruct (buChar ppr) as [[c|]|]; reflexivity.
    + assert (Hc : buChar ppr = None).
      { unfold has_bullet_element in Hb. destruct (buChar ppr); [discriminate | reflexivity]. }
      rewrite Hc.
      destruct (buNone ppr); simpl;
        destruct (hasattr (p_runs p)) as [[|]|]; simpl; try reflexivity;
        destruct (p_runs p) as [runs|]; simpl; try reflexivity;
        destruct (runs_loop runs) as [[|]|]; reflexivity.
  - destruct (hasattr (p_runs p)) as [[|]|]; simpl; try reflexivity;
      destruct (p_runs p) as [runs|]; simpl; try reflexivity;
      destruct (runs_loop runs) as [[|]|]; reflexivity.
  - destruct (hasattr (p_runs p)) as [[|]|]; simpl; try reflexivity;
      destruct (p_runs p) as [runs|]; simpl; try reflexivity;
      destruct (runs_loop runs) as [[|]|]; reflexivity.
Qed.

(** Once [original_bullet] is set after lines 77-84, nothing below
    changes it. *)
Lemma resolve_paragraph_text_bullet (context : option (list Paragraph))
    (p : Paragraph)
    (b : pystr) :
  text_bullet (strip (p_text p)) = Some b ->
  resolve_paragraph ul context p =
  (if truthy (original_bullet (bullet_probe p))
   then original_bullet (bullet_probe p) else b ++ space,
   strip (skipn (List.length b) (strip (p_text p)))).
Proof.
  intros H. unfold resolve_paragraph. rewrite H.
  set (ob1 := if truthy (original_bullet (bullet_probe p))
              then original_bullet (bullet_probe p) else b ++ space).
  assert (T : truthy ob1 = true).
  { unfold ob1. destruct (truthy (original_bullet (bullet_probe p))) eqn:E;
      [exact E | apply truthy_app_r; reflexivity]. }
  cbv zeta. rewrite T. simpl negb. rewrite andb_false_r. rewrite T. simpl.
  rewrite T. simpl. rewrite T. reflexivity.
Qed.

(** When the text carries no bullet character, the remaining steps of the
    body decide. *)
Lemma resolve_paragraph_no_text_bullet (context : option (list Paragraph))
    (p : Paragraph) :
  text_bullet (strip (p_text p)) = None ->
  resolve_paragraph ul context p =
  (let st := bullet_probe p in
   let text := strip (p_text p) in
   if truthy (original_bullet st) then original_bullet st
   else if has_ppt_bullet st then level_bullet (p_level p)
   else if (0 <? p_level p)%nat then level_bullet (p_level p)
   else if context_rule ul context text then dot_bullet
   else if slide2_condition ul text then dot_bullet
   else [],
   strip (p_text p)).
Proof.
  intros H. unfold resolve_paragraph. rewrite H. cbv zeta.
  destruct (truthy (original_bullet (bullet_probe p))) eqn:T.
  - simpl negb. rewrite andb_false_r. rewrite T. simpl. rewrite T. simpl.
    rewrite T. reflexivity.
  - apply truthy_false_iff in T. rewrite T.
    destruct (has_ppt_bullet (bullet_probe p)); simpl.
    + rewrite level_bullet_truthy. simpl. rewrite level_bullet_truthy.
      simpl. rewrite level_bullet_truthy. reflexivity.
    + destruct (p_level p) as [|n] eqn:L; simpl.
      * unfold context_rule. destruct context as [before|].
        { destruct (context_condition ul (prev_texts_of before)
                      (strip (p_text p))); simpl; [reflexivity|].
          destruct (slide2_condition ul (strip (p_text p))); reflexivity. }
        { simpl. destruct (slide2_condition ul (strip (p_text p)));
            reflexivity. }
      * rewrite level_bullet_truthy. simpl. rewrite level_bullet_truthy.
        reflexivity.
Qed.

(** C1 (amended). When the trimmed text of a paragraph starts with one of
    the bullet characters "•", "◦", "▪", "-", "*", the resolver removes that
    character from the text (and trims what is left), and the glyph it
    emits is that character followed by one space, unless the paragraph's
    explicit bullet-glyph attribute supplies a character: then the
    attribute's character followed by one space is emitted. No level-based
    default and no heuristic changes the glyph in either case. *)
Theorem text_bullet_kept (context : option (list Paragraph))
    (p : Paragraph) (b : pystr) :
  text_bullet (strip (p_text p)) = Some b ->
  In b bullet_chars
  /\ (exists rest,
        strip (p_text p) = b ++ rest
        /\ snd (resolve_paragraph ul context p) = strip rest)
  /\ fst (resolve_paragraph ul context p) =
     match explicit_glyph p with
     | Some char => char ++ space
     | None => b ++ space
     end.
Proof.
  intros H. destruct (text_bullet_in _ _ H) as [Hin Hs].
  rewrite (resolve_paragraph_text_bullet context p b H).
  split; [exact Hin|]. split.
  - exists (skipn (List.length b) (strip (p_text p))). split.
    + apply startswith_app, Hs.
    + reflexivity.
  - cbn [fst]. rewrite original_bullet_probe.
    destruct (explicit_glyph p) as [c|]; [|reflexivity].
    rewrite truthy_app_r; reflexivity.
Qed.

Lemma indented_paragraph_level (context : option (list Paragraph))
    (p : Paragraph) :
  (0 < p_level p)%nat ->
  explicit_glyph p = None ->
  text_bullet (strip (p_text p)) = None ->
  fst (resolve_paragraph ul context p) = level_bullet (p_level p).
Proof.
  intros L G T.
  rewrite (resolve_paragraph_no_text_bullet context p T). cbv zeta. cbn [fst].
  rewrite original_bullet_probe, G. simpl truthy. cbv iota.
  destruct (has_ppt_bullet (bullet_probe p)); [reflexivity|].
  apply Nat.ltb_lt in L. rewrite L. reflexivity.
Qed.

(** C7. A paragraph at a level above 0, without explicit bullet glyph and
    whose trimmed text does not start with a bullet character, gets the
    glyph of its level from the table "• ", "◦ ", "▪ ", and "- " beyond
    the table; that glyph is not empty. *)
Theorem indented_paragraph_gets_level_glyph (context : option (list Paragraph))
    (p : Paragraph) :
  (0 < p_level p)%nat ->
  explicit_glyph p = None ->
  text_bullet (strip (p_text p)) = None ->
  fst (resolve_paragraph ul context p) = level_bullet (p_level p)
  /\ fst (resolve_paragraph ul context p) <> []
  /\ In (fst (resolve_paragraph ul context p)) (default_bullets ++ [dash_bullet])
  /\ fst (resolve_paragraph ul context p) =
     match p_level p with
     | 1%nat => ring_bullet
     | 2%nat => square_bullet
     | _ => dash_bullet
     end.
Proof.
  intros L G T.
  rewrite (indented_paragraph_level context p L G T). split; [reflexivity|]. split.
  - apply truthy_true_iff, level_bullet_truthy.
  - destruct (p_level p) as [|[|[|n]]]; [lia| | |]; split;
      try reflexivity; simpl; auto 6.
Qed.

Lemma context_condition_true (prev_texts : list pystr) (text : pystr) :
  context_condition ul prev_texts text = true <->
  exists prev,
    last_opt prev_texts = Some prev
    /\ (List.length (split_ws prev) <= 3)%nat
    /\ endswith prev colon = false
    /\ (2 < List.length (split_ws text))%nat
    /\ exists keyword,
         In keyword context_keywords /\ contains (lower ul text) keyword = true.
Proof.
  unfold context_condition. destruct (last_opt prev_texts) as [prev|].
  - rewrite !andb_true_iff, negb_true_iff, Nat.leb_le, Nat.ltb_lt, existsb_any.
    split.
    + intros [[[A B] C] D]. exists prev. repeat split; assumption.
    + intros [q [E [A [B [C D]]]]]. injection E as <-.
      repeat split; assumption.
  - split; [discriminate|]. intros [q [E _]]. discriminate.
Qed.

Lemma context_rule_true (context : option (list Paragraph)) (text : pystr) :
  context_rule ul context text = true <->
  exists before prev,
    context = Some before
    /\ last_opt (prev_texts_of before) = Some prev
    /\ (List.length (split_ws prev) <= 3)%nat
    /\ endswith prev colon = false
    /\ (2 < List.length (split_ws text))%nat
    /\ exists keyword,
         In keyword context_keywords /\ contains (lower ul text) keyword = true.
Proof.
  unfold context_rule. destruct context as [before|].
  - rewrite context_condition_true. split.
    + intros [prev H]. exists before, prev. split; [reflexivity | exact H].
    + intros [b [prev [E H]]]. injection E as <-. exists prev. exact H.
  - split; [discriminate|]. intros [b [prev [E _]]]. discriminate.
Qed.

Lemma slide2_condition_true (text : pystr) :
  slide2_condition ul text = true <->
  exists pattern,
    In pattern slide2_patterns /\ contains (lower ul text) pattern = true.
Proof. unfold slide2_condition. apply existsb_any. Qed.



(** C3 (amended). A level-0 paragraph without explicit bullet signal (no
    bullet element, no run marker) and without bullet character in its
    text gets the bullet "• " exactly when one of the two keyword rules of
    the script fires, and no glyph otherwise. Rule 1: the paragraph is
    found again in the paragraph list of its shape, the nearest non-empty
    paragraph before it there has at most 3 words in its trimmed text and
    no final colon, the current text has more than 2 words, and the
    lower-cased current text contains one of the words align, coordinate,
    use, incremental, cross, iterative, teams, backlogs, decisions. Rule
    2: the lower-cased current text contains one of the phrases of
    [slide2_patterns]. *)
Theorem level0_bullet_by_keyword_rules (context : option (list Paragraph))
    (p : Paragraph) :
  p_level p = 0%nat ->
  has_ppt_bullet (bullet_probe p) = false ->
  explicit_glyph p = None ->
  text_bullet (strip (p_text p)) = None ->
  let text := strip (p_text p) in
  let rule1 :=
    exists before prev,
      context = Some before
      /\ last_opt (prev_texts_of before) = Some prev
      /\ (List.length (split_ws prev) <= 3)%nat
      /\ endswith prev colon = false
      /\ (2 < List.length (split_ws text))%nat
      /\ exists keyword,
           In keyword context_keywords
           /\ contains (lower ul text) keyword = true in
  let rule2 :=
    exists pattern,
      In pattern slide2_patterns /\ contains (lower ul text) pattern = true in
  (rule1 \/ rule2 -> resolve_paragraph ul context p = (dot_bullet, text))
  /\ (~ (rule1 \/ rule2) -> resolve_paragraph ul context p = ([], text)).
Proof.
  intros L HP G HT text rule1 rule2.
  rewrite (resolve_paragraph_no_text_bullet context p HT). cbv zeta.
  rewrite original_bullet_probe, G, HP, L. simpl truthy. cbv iota.
  change (0 <? 0)%nat with false. cbv iota. fold text.
  pose proof (context_rule_true context text) as C1.
  pose proof (slide2_condition_true text) as C2.
  fold rule1 in C1. fold rule2 in C2.
  destruct (context_rule ul context text).
  - split; [reflexivity|]. intros N. exfalso. apply N. left. apply C1. reflexivity.
  - destruct (slide2_condition ul text).
    + split; [reflexivity|]. intros N. exfalso. apply N. right. apply C2.
      reflexivity.
    + split; [|reflexivity]. intros [R|R].
      * apply C1 in R. discriminate.
      * apply C2 in R. discriminate.
Qed.

End Resolver.

(** ** Properties of the rendered lines *)

Section Lines.

Variable ul : pystr -> N -> pystr -> pystr.
Variable iu : N -> bool.

Lemma lstrip_spaces_app (pre s : pystr) :
  Forall (fun c => c = 32) pre -> lstrip (pre ++ s) = lstrip s.
Proof.
  induction 1 as [|c pre Hc _ IH]; simpl; [reflexivity|].
  subst c. simpl. exact IH.
Qed.

Lemma leading_ws_indent (level : nat) (s : pystr) :
  starts_nonspace s -> leading_ws (indent_of level ++ s) = (2 * level)%nat.
Proof.
  intros H. unfold leading_ws.
  rewrite (lstrip_spaces_app _ _ (indent_of_spaces level)).
  rewrite lstrip_fixed.
  - rewrite length_app, length_indent_of. lia.
  - destruct s; [exact I | exact H].
Qed.

Lemma leading_ws_lstrip (s : pystr) : leading_ws (lstrip s) = 0%nat.
Proof. unfold leading_ws. rewrite lstrip_idempotent. lia. Qed.

Lemma starts_nonspace_app (s t : pystr) :
  starts_nonspace s -> starts_nonspace (s ++ t).
Proof. destruct s; simpl; [contradiction | auto]. Qed.

Lemma bullet_char_starts_nonspace (b : pystr) :
  In b bullet_chars -> starts_nonspace b.
Proof.
  simpl. intros [<-|[<-|[<-|[<-|[<-|[]]]]]]; reflexivity.
Qed.

Lemma level_bullet_starts_nonspace (level : nat) :
  starts_nonspace (level_bullet level).
Proof. destruct level as [|[|[|n]]]; reflexivity. Qed.

Lemma strip_starts_nonspace (s : pystr) :
  truthy (strip s) = true -> starts_nonspace (strip s).
Proof.
  pose proof (strip_head s) as H. destruct (strip s); [discriminate|].
  intros _. exact H.
Qed.

(** The text the resolver hands out is trimmed. *)
Lemma resolve_paragraph_text_trimmed (context : option (list Paragraph))
    (p : Paragraph) :
  strip (snd (resolve_paragraph ul context p)) = snd (resolve_paragraph ul context p).
Proof.
  destruct (text_bullet (strip (p_text p))) as [b|] eqn:T.
  - rewrite (resolve_paragraph_text_bullet ul context p b T). cbn [snd].
    apply strip_idempotent.
  - rewrite (resolve_paragraph_no_text_bullet ul context p T). cbn [snd].
    apply strip_idempotent.
Qed.

(** Glyph and text together start with something visible, unless an
    explicit glyph starts with white space. *)
Lemma resolve_paragraph_starts_nonspace (context : option (list Paragraph))
    (p : Paragraph) :
  truthy (strip (p_text p)) = true ->
  (forall char, explicit_glyph p = Some char -> starts_nonspace char) ->
  starts_nonspace (fst (resolve_paragraph ul context p)
                   ++ snd (resolve_paragraph ul context p)).
Proof.
  intros HT HG.
  destruct (text_bullet (strip (p_text p))) as [b|] eqn:T.
  - destruct (text_bullet_in _ _ T) as [Hin _].
    rewrite (resolve_paragraph_text_bullet ul context p b T). cbn [fst snd].
    rewrite original_bullet_probe. apply starts_nonspace_app.
    destruct (explicit_glyph p) as [c|].
    + rewrite truthy_app_r by reflexivity.
      apply starts_nonspace_app, HG. reflexivity.
    + apply starts_nonspace_app, bullet_char_starts_nonspace, Hin.
  - rewrite (resolve_paragraph_no_text_bullet ul context p T). cbv zeta.
    cbn [fst snd]. rewrite original_bullet_probe.
    destruct (explicit_glyph p) as [c|].
    + rewrite truthy_app_r by reflexivity.
      apply starts_nonspace_app, starts_nonspace_app, HG. reflexivity.
    + simpl truthy. cbv iota.
      destruct (has_ppt_bullet (bullet_probe p)).
      { apply starts_nonspace_app, level_bullet_starts_nonspace. }
      destruct (0 <? p_level p)%nat.
      { apply starts_nonspace_app, level_bullet_starts_nonspace. }
      destruct (context_rule ul context (strip (p_text p))).
      { reflexivity. }
      destruct (slide2_condition ul (strip (p_text p))).
      { reflexivity. }
      simpl. apply strip_starts_nonspace, HT.
Qed.

Lemma resolve_paragraph2_text_trimmed (p : Paragraph) :
  strip (snd (resolve_paragraph2 p)) = snd (resolve_paragraph2 p).
Proof.
  unfold resolve_paragraph2.
  destruct (text_bullet (strip (p_text p))); cbn [snd];
    apply strip_idempotent.
Qed.

Lemma structured_loop_in (finds : bool) (ps pre : list Paragraph)
    (line : pystr) :
  In line (structured_loop ul finds pre ps) ->
  exists b p a,
    ps = b ++ p :: a
    /\ truthy (strip (p_text p)) = true
    /\ line = format_paragraph ul (context_of finds (pre ++ b)) p.
Proof.
  revert pre. induction ps as [|q ps IH]; intros pre H; simpl in H.
  - contradiction.
  - apply in_app_or in H as [H|H].
    + destruct (truthy (strip (p_text q))) eqn:Tq; [|contradiction].
      destruct H as [<-|[]].
      exists [], q, ps. rewrite app_nil_r. auto.
    + destruct (IH _ H) as [b [p [a [E [Tp F]]]]].
      exists (q :: b), p, a. subst ps. split; [reflexivity|].
      split; [exact Tp|]. rewrite <- app_assoc in F. exact F.
Qed.

Lemma flat_loop_in (lines : list pystr) (tc : list pystr) (line : pystr) :
  In line (flat_loop ul iu lines tc) ->
  In line tc
  \/ exists raw tc',
       In raw lines
       /\ truthy (strip (rstrip raw)) = true
       /\ line = flat_line ul iu tc' (rstrip raw).
Proof.
  revert tc. induction lines as [|raw lines IH]; intros tc H; simpl in H.
  - left. exact H.
  - destruct (truthy (strip (rstrip raw))) eqn:T; simpl in H.
    + destruct (IH _ H) as [Hin|[r [tc' [Hr [Tr E]]]]].
      * apply in_app_or in Hin as [Hin|[<-|[]]].
        { left. exact Hin. }
        { right. exists raw, tc. simpl. auto. }
      * right. exists r, tc'. simpl. auto.
    + destruct (IH _ H) as [Hin|[r [tc' [Hr [Tr E]]]]].
      * left. exact Hin.
      * right. exists r, tc'. simpl. auto.
Qed.

(** The two shapes of a line of the flat text. *)
Lemma flat_line_form (tc : list pystr) (src : pystr) :
  flat_line ul iu tc src = lstrip src
  \/ (any (startswith (lstrip src)) bullet_chars = false
      /\ exists bullet,
           In bullet [dot_bullet; ring_bullet; square_bullet]
           /\ flat_line ul iu tc src =
              indent_of (indent_level_of src) ++ bullet ++ lstrip src).
Proof.
  unfold flat_line.
  destruct (any (startswith (lstrip src)) bullet_chars) eqn:B; [left; reflexivity|].
  destruct (should_be_bullet ul iu _ (lstrip src)); [|left; reflexivity].
  right. split; [reflexivity|].
  destruct (indent_level_of src =? 0)%nat.
  - exists dot_bullet. simpl. auto.
  - destruct (indent_level_of src =? 1)%nat.
    + exists ring_bullet. simpl. auto.
    + exists square_bullet. simpl. auto.
Qed.

(** C6 (amended). Every line rendered from a paragraph of a text frame
    has the form indent + glyph + trimmed text, where indent is two spaces
    per level of the paragraph; the white space the line starts with is
    exactly that indent unless an explicit glyph itself starts with white
    space. A line of a flat text is indented only when its bullet is
    synthesized: it is then indent + bullet + stripped line, with two
    spaces per estimated level; a line that starts with a bullet character
    and a line left plain are emitted without their leading white space,
    whatever their estimated level. The paragraphs read after a flat text
    (lines 196-281) are rendered as indent + glyph + trimmed text too. *)
Theorem rendered_line_indent :
  (forall (tf : TextFrame) (line : pystr),
     In line (structured_lines ul tf) ->
     exists before p after glyph text,
       paragraphs tf = before ++ p :: after
       /\ resolve_paragraph ul (context_of (index_finds tf) before) p
          = (glyph, text)
       /\ line = indent_of (p_level p) ++ glyph ++ text
       /\ List.length (indent_of (p_level p)) = (2 * p_level p)%nat
       /\ Forall (fun c => c = 32) (indent_of (p_level p))
       /\ strip text = text
       /\ ((forall char, explicit_glyph p = Some char -> starts_nonspace char) ->
           leading_ws line = (2 * p_level p)%nat))
  /\ (forall (tf : TextFrame) (line : pystr),
        In line (trailing_lines tf) ->
        exists p glyph text,
          In p (paragraphs tf)
          /\ resolve_paragraph2 p = (glyph, text)
          /\ line = indent_of (p_level p) ++ glyph ++ text
          /\ List.length (indent_of (p_level p)) = (2 * p_level p)%nat
          /\ strip text = text)
  /\ (forall (shape_text line : pystr),
        In line (flat_lines ul iu shape_text) ->
        exists raw,
          In raw (split_on 10 shape_text)
          /\ ((line = lstrip (rstrip raw) /\ leading_ws line = 0%nat)
              \/ (any (startswith (lstrip (rstrip raw))) bullet_chars = false
                  /\ leading_ws line = (2 * indent_level_of (rstrip raw))%nat
                  /\ exists bullet,
                       In bullet [dot_bullet; ring_bullet; square_bullet]
                       /\ line = indent_of (indent_level_of (rstrip raw))
                                 ++ bullet ++ lstrip (rstrip raw)))).
Proof.
  split; [|split].
  - intros tf line H. unfold structured_lines in H.
    destruct (structured_loop_in _ _ _ _ H) as [b [p [a [E [T F]]]]].
    simpl app in F. unfold format_paragraph in F.
    pose proof (resolve_paragraph_text_trimmed
                  (context_of (index_finds tf) b) p) as Htrim.
    pose proof (resolve_paragraph_starts_nonspace
                  (context_of (index_finds tf) b) p T) as Hns.
    destruct (resolve_paragraph ul (context_of (index_finds tf) b) p)
      as [glyph text] eqn:R.
    cbn [fst snd] in Htrim, Hns.
    exists b, p, a, glyph, text.
    repeat split; try assumption.
    + apply length_indent_of.
    + apply indent_of_spaces.
    + intros HG. rewrite F. apply leading_ws_indent, Hns, HG.
  - intros tf line H. unfold trailing_lines in H.
    apply in_flat_map in H as [p [Hp H]].
    destruct (truthy (strip (p_text p))); [|contradiction].
    destruct H as [<-|[]].
    pose proof (resolve_paragraph2_text_trimmed p) as Htrim.
    unfold format_paragraph2.
    destruct (resolve_paragraph2 p) as [glyph text] eqn:R. cbn [snd] in Htrim.
    exists p, glyph, text. repeat split; try assumption.
    apply length_indent_of.
  - intros shape_text line H. unfold flat_lines in H.
    destruct (flat_loop_in _ _ _ H) as [[]|[raw [tc [Hr [T E]]]]].
    exists raw. split; [exact Hr|].
    destruct (flat_line_form tc (rstrip raw)) as [F|[B [bullet [Hb F]]]].
    + left. rewrite E, F. split; [reflexivity | apply leading_ws_lstrip].
    + right. split; [exact B|]. split.
      * rewrite E, F. apply leading_ws_indent, starts_nonspace_app.
        simpl in Hb. destruct Hb as [<-|[<-|[<-|[]]]]; reflexivity.
      * exists bullet. split; [exact Hb|]. rewrite E. exact F.
Qed.

End Lines.

(** ** Properties of the slide assembler *)

Section SlideAssembler.

Variable ul : pystr -> N -> pystr -> pystr.
Variable iu : N -> bool.

Lemma title_of_shape_placeholder (s : Shape) (t : pystr) :
  title_of_shape s = Some t -> is_title_placeholder s = true.
Proof.
  unfold title_of_shape, is_title_placeholder.
  destruct (hasattr (placeholder_format s)) as [[|]|]; try discriminate.
  destruct (placeholder_format s) as [[idx|]|]; try discriminate.
  destruct (idx =? 0); [reflexivity | discriminate].
Qed.

Lemma title_shape_skipped (s : Shape) (sc : SlideRecord) :
  placeholder_format s = Ok (Some 0) -> process_shape ul iu s sc = Ok sc.
Proof.
  intros H. unfold process_shape, is_title_placeholder. rewrite H. reflexivity.
Qed.

Lemma title_loop_app (xs ys : list Shape) (t : pystr) :
  title_loop (xs ++ ys) t = title_loop ys (title_loop xs t).
Proof. unfold title_loop. apply fold_left_app. Qed.

Lemma title_loop_none (ys : list Shape) (t : pystr) :
  (forall y, In y ys -> title_of_shape y = None) -> title_loop ys t = t.
Proof.
  induction ys as [|y ys IH]; intros H; [reflexivity|].
  unfold title_loop in *. simpl. rewrite (H y (or_introl eq_refl)).
  apply IH. intros z Hz. apply H. right. exact Hz.
Qed.

Lemma content_loop_app (xs ys : list Shape) (sc : SlideRecord)
    (pr : list pystr) :
  content_loop ul iu (xs ++ ys) sc pr =
  content_loop ul iu ys (fst (content_loop ul iu xs sc pr))
    (snd (content_loop ul iu xs sc pr)).
Proof.
  revert sc pr. induction xs as [|x xs IH]; intros sc pr; simpl.
  - reflexivity.
  - destruct (process_shape ul iu x sc); apply IH.
Qed.

(** The lines printed so far do not influence the loop. *)
Lemma content_loop_printed (l : list Shape) (sc : SlideRecord)
    (pr : list pystr) :
  content_loop ul iu l sc pr =
  (fst (content_loop ul iu l sc []), pr ++ snd (content_loop ul iu l sc [])).
Proof.
  revert sc pr. induction l as [|x l IH]; intros sc pr; simpl.
  - rewrite app_nil_r. reflexivity.
  - destruct (process_shape ul iu x sc) as [sc'|e].
    + apply IH.
    + rewrite (IH sc (pr ++ [warning e])), (IH sc [warning e]).
      simpl. rewrite <- app_assoc. reflexivity.
Qed.

(** The title in the record does not influence the loop either. *)
Lemma process_shape_with_title (s : Shape) (sc : SlideRecord) (t : pystr) :
  process_shape ul iu s (with_title t sc) =
  match process_shape ul iu s sc with
  | Ok sc' => Ok (with_title t sc')
  | Raise e => Raise e
  end.
Proof.
  unfold process_shape. destruct (is_title_placeholder s); [reflexivity|].
  destruct (shape_type s) as [ty|e]; [|reflexivity].
  destruct (is_PICTURE ty).
  - simpl images.
    destruct (image_description s (List.length (images sc))); reflexivity.
  - destruct (extract_text_from_shape ul iu s); reflexivity.
Qed.

Lemma content_loop_with_title (l : list Shape) (sc : SlideRecord)
    (pr : list pystr) (t : pystr) :
  content_loop ul iu l (with_title t sc) pr =
  (with_title t (fst (content_loop ul iu l sc pr)),
   snd (content_loop ul iu l sc pr)).
Proof.
  revert sc pr. induction l as [|x l IH]; intros sc pr; simpl.
  - reflexivity.
  - rewrite process_shape_with_title.
    destruct (process_shape ul iu x sc) as [sc'|e]; apply IH.
Qed.

Lemma process_shape_title (s : Shape) (sc sc' : SlideRecord) :
  process_shape ul iu s sc = Ok sc' -> title sc' = title sc.
Proof.
  unfold process_shape. destruct (is_title_placeholder s).
  - intros [= <-]. reflexivity.
  - destruct (shape_type s) as [ty|e]; [|discriminate].
    destruct (is_PICTURE ty).
    + destruct (image_description s _); [|discriminate].
      intros [= <-]. reflexivity.
    + destruct (extract_text_from_shape ul iu s); [|discriminate].
      intros [= <-]. reflexivity.
Qed.

Lemma content_loop_title (l : list Shape) (sc : SlideRecord) (pr : list pystr) :
  title (fst (content_loop ul iu l sc pr)) = title sc.
Proof.
  revert sc pr. induction l as [|x l IH]; intros sc pr; simpl.
  - reflexivity.
  - destruct (process_shape ul iu x sc) as [sc'|e] eqn:E.
    + rewrite IH. apply (process_shape_title _ _ _ E).
    + apply IH.
Qed.

(** Whether a shape fails does not depend on the record. *)
Lemma process_shape_raise_any (s : Shape) (sc sc' : SlideRecord) (e : exn) :
  process_shape ul iu s sc = Raise e -> process_shape ul iu s sc' = Raise e.
Proof.
  unfold process_shape. destruct (is_title_placeholder s); [discriminate|].
  destruct (shape_type s) as [ty|e0]; [|auto].
  destruct (is_PICTURE ty).
  - unfold image_description.
    destruct (truthy (probe_alt_text s) && truthy (strip (probe_alt_text s)));
      [discriminate|].
    destruct (name s) as [n|[m|m|m]]; simpl; try discriminate; auto.
  - destruct (extract_text_from_shape ul iu s); [discriminate | auto].
Qed.

Lemma process_shape_raise_not_title (s : Shape) (sc : SlideRecord) (e : exn) :
  process_shape ul iu s sc = Raise e -> title_of_shape s = None.
Proof.
  intros H. destruct (title_of_shape s) as [t|] eqn:T; [|reflexivity].
  apply title_of_shape_placeholder in T. unfold process_shape in H.
  rewrite T in H. discriminate.
Qed.

(** The loop only appends to the content and to the images. *)
Lemma content_loop_grows (l : list Shape) (sc : SlideRecord) (pr : list pystr) :
  exists cs ims,
    content (fst (content_loop ul iu l sc pr)) = content sc ++ cs
    /\ images (fst (content_loop ul iu l sc pr)) = images sc ++ ims.
Proof.
  revert sc pr. induction l as [|x l IH]; intros sc pr; simpl.
  - exists [], []. rewrite !app_nil_r. auto.
  - destruct (process_shape ul iu x sc) as [sc'|e] eqn:E; [|apply IH].
    destruct (IH sc' pr) as [cs [ims [C I]]]. rewrite C, I.
    unfold process_shape in E. destruct (is_title_placeholder x).
    + injection E as <-. eauto.
    + destruct (shape_type x) as [ty|e0]; [|discriminate].
      destruct (is_PICTURE ty).
      * destruct (image_description x _) as [d|]; [|discriminate].
        injection E as <-. simpl. exists cs, ([d] ++ ims).
        rewrite <- app_assoc. auto.
      * destruct (extract_text_from_shape ul iu x) as [ls|]; [|discriminate].
        injection E as <-. simpl. exists (ls ++ cs), ims.
        rewrite <- app_assoc. auto.
Qed.

(** The lines of a text shape that is processed are in the content. *)
Lemma content_loop_keeps_text (l : list Shape) (y : Shape) (ty : MSO_SHAPE_TYPE)
    (ls : list pystr) (sc : SlideRecord) (pr : list pystr) :
  In y l ->
  is_title_placeholder y = false ->
  shape_type y = Ok ty ->
  is_PICTURE ty = false ->
  extract_text_from_shape ul iu y = Ok ls ->
  exists pre post,
    content (fst (content_loop ul iu l sc pr)) = pre ++ ls ++ post.
Proof.
  intros Hin HT HS HP HE. revert sc pr.
  induction l as [|x l IH]; intros sc pr; [contradiction|].
  simpl. destruct Hin as [->|Hin].
  - unfold process_shape at 1. rewrite HT, HS, HP, HE.
    destruct (content_loop_grows l (add_content sc ls) pr) as [cs [_ [C _]]].
    rewrite C. simpl. exists (content sc), cs. rewrite <- app_assoc. reflexivity.
  - destruct (process_shape ul iu x sc); apply (IH Hin).
Qed.

(** The description of a picture that is processed is in the images. *)
Lemma content_loop_keeps_image (l : list Shape) (y : Shape)
    (ty : MSO_SHAPE_TYPE) (sc : SlideRecord) (pr : list pystr) :
  In y l ->
  is_title_placeholder y = false ->
  shape_type y = Ok ty ->
  is_PICTURE ty = true ->
  (forall n, exists d, image_description y n = Ok d) ->
  exists n d,
    image_description y n = Ok d
    /\ In d (images (fst (content_loop ul iu l sc pr))).
Proof.
  intros Hin HT HS HP HD. revert sc pr.
  induction l as [|x l IH]; intros sc pr; [contradiction|].
  simpl. destruct Hin as [->|Hin].
  - unfold process_shape at 1. rewrite HT, HS, HP.
    destruct (HD (List.length (images sc))) as [d E]. rewrite E.
    destruct (content_loop_grows l (add_image sc d) pr) as [_ [ims [_ I]]].
    exists (List.length (images sc)), d. split; [exact E|].
    rewrite I. simpl. apply in_or_app. left. apply in_or_app. right.
    left. reflexivity.
  - destruct (process_shape ul iu x sc); apply (IH Hin).
Qed.

(** [extract_slide_text] in terms of the two loops. *)
Lemma extract_slide_text_loops (slide : Slide) :
  extract_slide_text ul iu slide =
  let l := match shapes slide with Some l => l | None => [] end in
  let body := content_loop ul iu l empty_record [] in
  ({| title := title_loop l [];
      content := content (fst body);
      notes := match notes_text slide with
               | Some t => if truthy (strip t) then strip t else []
               | None => []
               end;
      images := images (fst body) |}, snd body).
Proof.
  unfold extract_slide_text. cbv zeta.
  set (l := match shapes slide with Some l => l | None => [] end).
  change {| title := title_loop l []; content := []; notes := [];
            images := [] |}
    with (with_title (title_loop l []) empty_record).
  rewrite content_loop_with_title. reflexivity.
Qed.

Lemma title_of_shape_blank (y : Shape) :
  (forall t, placeholder_format y = Ok (Some 0) -> text y = Ok t ->
             strip t = []) ->
  title_of_shape y = None.
Proof.
  intros H. unfold title_of_shape.
  destruct (placeholder_format y) as [[idx|]|[m|m|m]]; simpl; try reflexivity.
  destruct (idx =? 0) eqn:E; [|reflexivity].
  apply N.eqb_eq in E. subst idx.
  destruct (text y) as [t|[m|m|m]]; simpl; try reflexivity.
  rewrite (H t eq_refl eq_refl). reflexivity.
Qed.

Lemma content_loop_skip (xs ys : list Shape) (s : Shape) :
  placeholder_format s = Ok (Some 0) ->
  content_loop ul iu (xs ++ s :: ys) empty_record [] =
  content_loop ul iu (xs ++ ys) empty_record [].
Proof.
  intros H. rewrite !content_loop_app. simpl.
  rewrite (title_shape_skipped s _ H). reflexivity.
Qed.

(** C5 (amended). When a slide has title placeholders (index 0) with
    non-empty text, the recorded title is the trimmed text of the last of
    them in shape order: a later one overwrites an earlier one. Every such
    shape is left out of content processing: the content, the images and
    the warnings are those of the slide without it. *)
Theorem title_is_last_title_shape (slide : Slide) (xs ys : list Shape)
    (s : Shape) (t : pystr) :
  shapes slide = Some (xs ++ s :: ys) ->
  placeholder_format s = Ok (Some 0) ->
  text s = Ok t ->
  strip t <> [] ->
  let got := extract_slide_text ul iu slide in
  let without := extract_slide_text ul iu (with_shapes slide (xs ++ ys)) in
  ((forall y u, In y ys -> placeholder_format y = Ok (Some 0) ->
                text y = Ok u -> strip u = []) ->
   title (fst got) = strip t)
  /\ content (fst got) = content (fst without)
  /\ images (fst got) = images (fst without)
  /\ snd got = snd without.
Proof.
  intros HS HP HT HN got without. subst got without.
  rewrite !extract_slide_text_loops. simpl shapes. rewrite HS. cbv zeta.
  cbn [fst snd title content images].
  rewrite (content_loop_skip xs ys s HP).
  split; [|auto].
  intros Hys. rewrite title_loop_app. unfold title_loop at 1. simpl fold_left.
  fold (title_loop ys).
  assert (E : title_of_shape s = Some (strip t)).
  { unfold title_of_shape. rewrite HP, HT. simpl.
    apply truthy_true_iff in HN. rewrite HN. reflexivity. }
  rewrite E. apply title_loop_none.
  intros y Hy. apply title_of_shape_blank. intros u A B.
  apply (Hys y u Hy A B).
Qed.

(** C10. A shape whose placeholder index is 0 and whose text is empty or
    white space only is left out altogether: the slide yields the same
    title, content, images, notes and warnings as the slide without that
    shape. *)
Theorem blank_title_placeholder_excluded (slide : Slide) (xs ys : list Shape)
    (s : Shape) (t : pystr) :
  shapes slide = Some (xs ++ s :: ys) ->
  placeholder_format s = Ok (Some 0) ->
  text s = Ok t ->
  strip t = [] ->
  extract_slide_text ul iu slide =
  extract_slide_text ul iu (with_shapes slide (xs ++ ys)).
Proof.
  intros HS HP HT HB.
  rewrite !extract_slide_text_loops. simpl shapes. rewrite HS. cbv zeta.
  rewrite (content_loop_skip xs ys s HP).
  assert (E : title_of_shape s = None).
  { apply title_of_shape_blank. intros u _ Hu. rewrite HT in Hu.
    injection Hu as <-. exact HB. }
  rewrite !title_loop_app. unfold title_loop at 1 3. simpl fold_left.
  rewrite E. reflexivity.
Qed.

(** C8. When processing one shape of a slide raises an error, the error
    is caught there: the warning "Warning: Skipped shape due to error: "
    followed by the error's message is printed, in the place of the shape
    among the warnings, the loop goes on, and the record is the one of the
    slide without that shape. So the lines of every other text shape and
    the description of every other picture are in the record, and
    [extract_slide_text] returns its record whatever the shapes raise. *)
Theorem shape_failure_is_isolated (slide : Slide) (xs ys : list Shape)
    (s : Shape) (e : exn) :
  shapes slide = Some (xs ++ s :: ys) ->
  process_shape ul iu s empty_record = Raise e ->
  let got := extract_slide_text ul iu slide in
  let others := extract_slide_text ul iu (with_shapes slide (xs ++ ys)) in
  fst got = fst others
  /\ (exists pr1 pr2,
        snd others = pr1 ++ pr2
        /\ snd got
           = pr1
             ++ (py "Warning: Skipped shape due to error: "
                 ++ match e with
                    | AttributeError msg | ValueError msg
                    | OtherException msg => msg
                    end) :: pr2)
  /\ (forall y ty ls,
        In y (xs ++ ys) ->
        is_title_placeholder y = false ->
        shape_type y = Ok ty ->
        is_PICTURE ty = false ->
        extract_text_from_shape ul iu y = Ok ls ->
        exists pre post, content (fst got) = pre ++ ls ++ post)
  /\ (forall y ty,
        In y (xs ++ ys) ->
        is_title_placeholder y = false ->
        shape_type y = Ok ty ->
        is_PICTURE ty = true ->
        (forall n, exists d, image_description y n = Ok d) ->
        exists n d,
          image_description y n = Ok d /\ In d (images (fst got))).
Proof.
  intros HS HR got others.
  assert (E : fst got = fst others
              /\ exists pr1 pr2,
                   snd others = pr1 ++ pr2
                   /\ snd got
                      = pr1
                        ++ (py "Warning: Skipped shape due to error: "
                            ++ match e with
                               | AttributeError msg | ValueError msg
                               | OtherException msg => msg
                               end) :: pr2).
  { subst got others.
    rewrite !extract_slide_text_loops. simpl shapes. rewrite HS. cbv zeta.
    cbn [fst snd].
    rewrite !title_loop_app. unfold title_loop at 1 3. simpl fold_left.
    rewrite (process_shape_raise_not_title s _ e HR).
    rewrite !content_loop_app. simpl content_loop.
    set (sc := fst (content_loop ul iu xs empty_record [])).
    set (pr := snd (content_loop ul iu xs empty_record [])).
    rewrite (process_shape_raise_any s empty_record sc e HR).
    rewrite (content_loop_printed ys sc (pr ++ [warning e])).
    rewrite (content_loop_printed ys sc pr).
    cbn [fst snd]. split; [reflexivity|].
    exists pr, (snd (content_loop ul iu ys sc [])).
    split; [reflexivity|]. rewrite <- app_assoc.
    change (warning e)
      with (py "Warning: Skipped shape due to error: "
            ++ match e with
               | AttributeError msg | ValueError msg
               | OtherException msg => msg
               end).
    reflexivity. }
  destruct E as [E1 E2]. split; [exact E1|]. split; [exact E2|].
  rewrite E1. subst others. rewrite extract_slide_text_loops.
  simpl shapes. cbv zeta. cbn [fst content images]. split.
  - intros y ty ls Hin A B C D.
    apply (content_loop_keeps_text _ y ty ls _ _ Hin A B C D).
  - intros y ty Hin A B C D.
    apply (content_loop_keeps_image _ y ty _ _ Hin A B C D).
Qed.

End SlideAssembler.

(** ** Properties of the image description *)

Lemma attr_if_truthy_some (x : result pystr) (v : pystr) :
  attr_if_truthy x = Ok (Some v) -> x = Ok v /\ truthy v = true.
Proof.
  unfold attr_if_truthy. destruct x as [a|[m|m|m]]; simpl; try discriminate.
  destruct (truthy a) eqn:T; [|discriminate]. intros [= <-]. auto.
Qed.

Lemma xml_method_none (get : XmlElement -> option pystr) (shape : Shape) :
  (forall els, element_iter shape = Ok els -> find_cNvPr_attr get els = None) ->
  xml_method get shape [] = [].
Proof.
  intros H. unfold xml_method. simpl.
  destruct (element_iter shape) as [els|e]; [|reflexivity].
  rewrite (H els eq_refl). reflexivity.
Qed.

(** Without any source of alt text the probe ends with an empty
    [alt_text]. *)
Lemma probe_alt_text_none (shape : Shape) :
  no_alt_sources shape -> probe_alt_text shape = [].
Proof.
  intros [HD [HA [HX HN]]]. unfold probe_alt_text, alt_method1.
  rewrite HD, HA.
  rewrite (xml_method_none el_descr shape)
    by (intros els E; apply (HX els E)).
  rewrite (xml_method_none el_title shape)
    by (intros els E; apply (HX els E)).
  unfold alt_method4. simpl negb. cbv iota.
  destruct (attr_if_truthy (name shape)) as [[nm|]|e] eqn:E; try reflexivity.
  apply attr_if_truthy_some in E as [E _].
  destruct (HN nm E) as [B|G].
  - rewrite B. reflexivity.
  - unfold any in G. simpl in G. rewrite G. reflexivity.
Qed.

(** The description recorded for a picture is never empty. It is
    produced whenever the shape's name can be read or is missing. When
    the picture has no description, no metadata description, no metadata
    title and no name other than a generic one, it is "[No alt-text] "
    followed by the shape's name, or by Image_ and the ordinal of the
    image when the shape has no name. *)
Theorem image_description_never_empty (shape : Shape) (n : nat) :
  (forall d, image_description shape n = Ok d -> d <> [])
  /\ (forall b, hasattr (name shape) = Ok b ->
        exists d, image_description shape n = Ok d /\ d <> [])
  /\ (no_alt_sources shape ->
      (forall nm, name shape = Ok nm ->
         image_description shape n = Ok (no_alt_text ++ nm))
      /\ (forall m, name shape = Raise (AttributeError m) ->
            image_description shape n =
            Ok (no_alt_text ++ image_prefix ++ str_of_nat (n + 1)))).
Proof.
  assert (NE : forall d, image_description shape n = Ok d -> d <> []).
  { intros d. unfold image_description.
    destruct (truthy (probe_alt_text shape)
              && truthy (strip (probe_alt_text shape))) eqn:T.
    - intros [= <-]. apply andb_true_iff in T as [_ T].
      apply truthy_true_iff, T.
    - destruct (getattr_default (name shape) _) as [f|e]; [|discriminate].
      intros [= <-]. discriminate. }
  split; [exact NE|]. split.
  - intros b Hb.
    assert (E : exists d, image_description shape n = Ok d).
    { unfold image_description.
      destruct (truthy (probe_alt_text shape)
                && truthy (strip (probe_alt_text shape))); [eauto|].
      destruct (name shape) as [nm|[m|m|m]]; simpl in *; try discriminate;
        eauto. }
    destruct E as [d E]. exists d. split; [exact E | apply (NE d E)].
  - intros H. unfold image_description.
    rewrite (probe_alt_text_none shape H). simpl andb. cbv iota.
    split.
    + intros nm E. rewrite E. reflexivity.
    + intros m E. rewrite E. reflexivity.
Qed.

(** ** The flat text of a shape without text frame *)

(** A shape that only has a text, and no text frame, makes
    [extract_text_from_shape] raise after the flat lines are computed:
    line 196 reads [shape.text_frame.paragraphs]. *)
Lemma flat_shape_raises (ul : pystr -> N -> pystr -> pystr) (iu : N -> bool)
    (shape : Shape) (m t : pystr) :
  text_frame shape = Raise (AttributeError m) ->
  text shape = Ok t ->
  strip t <> [] ->
  extract_text_from_shape ul iu shape = Raise (AttributeError m).
Proof.
  intros HF HT HN. unfold extract_text_from_shape. rewrite HF, HT. simpl.
  apply truthy_true_iff in HN. rewrite HN. reflexivity.
Qed.

(** C4. On the flat text of scenario C the loop over the lines builds
    "- Item one" and "• Item two", but [extract_text_from_shape] then
    raises [AttributeError] on the missing text frame; the slide assembler
    catches it, prints a warning and the slide's content stays empty. *)
Example flat_text_lines_are_lost :
  flat_lines Sample.caseless_lower Sample.caseless_isupper
    Sample.scenario_C_text
  = [py "- Item one"; py "• Item two"]
  /\ extract_text_from_shape Sample.caseless_lower Sample.caseless_isupper
       (Sample.flat_shape Sample.scenario_C_text)
     = Raise (Sample.no_attribute "text_frame")
  /\ extract_slide_text Sample.caseless_lower Sample.caseless_isupper
       (Sample.slide_of [Sample.flat_shape Sample.scenario_C_text])
     = (empty_record, [warning (Sample.no_attribute "text_frame")]).
Proof. vm_compute. repeat split. Qed.

(** ** The theorems at sample inputs *)

Import Sample.

(** C1 fails as stated: the paragraph has [<a:buChar char="•"/>] and the
    text "- item"; the text starts with "-", yet the glyph is "• ". *)
Lemma explicit_glyph_beats_text_bullet :
  text_bullet (strip (p_text (with_buChar "- item" 0 "•"))) = Some (py "-")
  /\ resolve_paragraph caseless_lower (Some []) (with_buChar "- item" 0 "•")
     = (py "• ", py "item")
  /\ fst (resolve_paragraph caseless_lower (Some []) (with_buChar "- item" 0 "•"))
     <> py "-" ++ space.
Proof. vm_compute. repeat split. discriminate. Qed.

Lemma text_bullet_kept_witness :
  text_bullet (strip (p_text (plain "- item" 1))) = Some (py "-")
  /\ fst (resolve_paragraph caseless_lower (Some []) (plain "- item" 1)) = py "- ".
Proof.
  split; [reflexivity|].
  apply (text_bullet_kept caseless_lower (Some []) (plain "- item" 1) (py "-")).
  reflexivity.
Defined.



(** C3 fails as stated, both ways. After the short line "Intro" the text
    "one two three" fulfils the structural condition and gets no bullet:
    it has none of the keywords. The lone paragraph "Teams operate" has no
    preceding line and gets a bullet: it matches a phrase. *)
Lemma structural_condition_does_not_decide :
  structured_lines caseless_lower
    {| tf_bool := true; index_finds := true;
       paragraphs := [plain "Intro" 0; plain "one two three" 0] |}
  = [py "Intro"; py "one two three"]
  /\ structured_lines caseless_lower
       {| tf_bool := true; index_finds := false;
          paragraphs := [plain "Intro" 0; plain "one two three" 0] |}
     = [py "Intro"; py "one two three"]
  /\ spec_structural_condition (Some (py "Intro")) (py "one two three") = true
  /\ fst (resolve_paragraph caseless_lower (Some [plain "Intro" 0])
            (plain "one two three" 0)) = []
  /\ spec_structural_condition None (py "Teams operate") = false
  /\ fst (resolve_paragraph caseless_lower (Some []) (plain "Teams operate" 0))
     = py "• ".
Proof. vm_compute. repeat split. Qed.

Lemma level0_bullet_by_keyword_rules_witness :
  p_level (plain "Coordinate shared roadmap" 0) = 0%nat
  /\ resolve_paragraph caseless_lower (Some [plain "Align decisions" 0])
       (plain "Coordinate shared roadmap" 0)
     = (dot_bullet, py "Coordinate shared roadmap").
Proof.
  split; [reflexivity|].
  refine (proj1 (level0_bullet_by_keyword_rules caseless_lower
                   (Some [plain "Align decisions" 0])
                   (plain "Coordinate shared roadmap" 0)
                   eq_refl eq_refl eq_refl eq_refl) _).
  left. exists [plain "Align decisions" 0], (py "Align decisions").
  split; [reflexivity|].
  split; [reflexivity|]. split; [simpl; lia|]. split; [reflexivity|].
  split; [simpl; lia|].
  exists (py "coordinate"). split; [simpl; auto | reflexivity].
Defined.

(** C5 fails as stated: with the title placeholders "First" and "Second"
    the recorded title is "Second". *)
Lemma second_title_shape_wins :
  title (fst (extract_slide_text caseless_lower caseless_isupper
                (slide_of [title_shape "First"; title_shape "Second"])))
  = py "Second"
  /\ title (fst (extract_slide_text caseless_lower caseless_isupper
                   (slide_of [title_shape "First"; title_shape "Second"])))
     <> py "First".
Proof. vm_compute. split; [reflexivity | discriminate]. Qed.

Lemma title_is_last_title_shape_witness :
  strip (py "Second") <> []
  /\ title (fst (extract_slide_text caseless_lower caseless_isupper
                   (slide_of [title_shape "First"; title_shape "Second";
                              text_shape [plain "Body" 0]])))
     = py "Second".
Proof.
  split; [vm_compute; discriminate|].
  refine (proj1 (title_is_last_title_shape caseless_lower caseless_isupper
                   (slide_of [title_shape "First"; title_shape "Second";
                              text_shape [plain "Body" 0]])
                   [title_shape "First"] [text_shape [plain "Body" 0]]
                   (title_shape "Second") (py "Second")
                   eq_refl eq_refl eq_refl _) _).
  - vm_compute. discriminate.
  - intros y u [<-|[]]. vm_compute. discriminate.
Defined.

(** C6 fails as stated: the flat line "  - Item one" has the estimated
    level 1 and is rendered without indent. *)
Lemma flat_bullet_line_loses_indent :
  flat_lines caseless_lower caseless_isupper (py "  - Item one")
  = [py "- Item one"]
  /\ extract_text_from_shape caseless_lower caseless_isupper
       (empty_frame_shape (py "  - Item one"))
     = Ok [py "- Item one"]
  /\ indent_level_of (rstrip (py "  - Item one")) = 1%nat
  /\ leading_ws (py "- Item one")
     <> (2 * indent_level_of (rstrip (py "  - Item one")))%nat.
Proof. vm_compute. repeat split. discriminate. Qed.

Lemma rendered_line_indent_witness :
  In (py "    ▪ deep") (structured_lines caseless_lower
        {| tf_bool := true; index_finds := false;
           paragraphs := [plain "Top" 0; plain "deep" 2] |})
  /\ exists before p after glyph text,
       [plain "Top" 0; plain "deep" 2] = before ++ p :: after
       /\ resolve_paragraph caseless_lower (context_of false before) p
          = (glyph, text)
       /\ py "    ▪ deep" = indent_of (p_level p) ++ glyph ++ text
       /\ List.length (indent_of (p_level p)) = (2 * p_level p)%nat
       /\ Forall (fun c => c = 32) (indent_of (p_level p))
       /\ strip text = text
       /\ ((forall char, explicit_glyph p = Some char -> starts_nonspace char) ->
           leading_ws (py "    ▪ deep") = (2 * p_level p)%nat).
Proof.
  split; [vm_compute; auto|].
  apply (proj1 (rendered_line_indent caseless_lower caseless_isupper)
           {| tf_bool := true; index_finds := false;
           paragraphs := [plain "Top" 0; plain "deep" 2] |}).
  vm_compute. auto.
Defined.

Lemma indented_paragraph_gets_level_glyph_witness :
  (0 < p_level (plain "deep" 2))%nat
  /\ fst (resolve_paragraph caseless_lower (Some []) (plain "deep" 2)) = py "▪ ".
Proof.
  split; [simpl; lia|].
  refine (proj1 (indented_paragraph_gets_level_glyph caseless_lower (Some [])
                   (plain "deep" 2) _ eq_refl eq_refl)).
  simpl. lia.
Defined.

Lemma shape_failure_is_isolated_witness :
  process_shape caseless_lower caseless_isupper broken_shape empty_record
  = Raise (OtherException (py "corrupt shape"))
  /\ fst (extract_slide_text caseless_lower caseless_isupper
            (slide_of [text_shape [plain "One" 0]; broken_shape;
                       picture "Picture 3"]))
     = fst (extract_slide_text caseless_lower caseless_isupper
              (slide_of [text_shape [plain "One" 0]; picture "Picture 3"]))
  /\ snd (extract_slide_text caseless_lower caseless_isupper
            (slide_of [text_shape [plain "One" 0]; broken_shape;
                       picture "Picture 3"]))
     = [py "Warning: Skipped shape due to error: corrupt shape"].
Proof.
  split; [reflexivity|]. split; [|reflexivity].
  refine (proj1 (shape_failure_is_isolated caseless_lower caseless_isupper
                   (slide_of [text_shape [plain "One" 0]; broken_shape;
                              picture "Picture 3"])
                   [text_shape [plain "One" 0]] [picture "Picture 3"]
                   broken_shape (OtherException (py "corrupt shape"))
                   eq_refl eq_refl)).
Defined.

Lemma image_description_never_empty_witness :
  hasattr (name (picture "Picture 3")) = Ok true
  /\ image_description (picture "Picture 3") 0 = Ok (py "[No alt-text] Picture 3").
Proof.
  split; [reflexivity|].
  refine (proj1 (proj2 (proj2 (image_description_never_empty
                                 (picture "Picture 3") 0)) _)
            (py "Picture 3") eq_refl).
  unfold no_alt_sources. split; [reflexivity|]. split; [reflexivity|]. split.
  - intros els E. injection E as <-. split; reflexivity.
  - intros n E. injection E as <-. right. reflexivity.
Defined.

Lemma blank_title_placeholder_excluded_witness :
  strip (py "   ") = []
  /\ extract_slide_text caseless_lower caseless_isupper
       (slide_of [title_shape "   "; text_shape [plain "Body" 0]])
     = extract_slide_text caseless_lower caseless_isupper
         (slide_of [text_shape [plain "Body" 0]]).
Proof.
  split; [reflexivity|].
  apply (blank_title_placeholder_excluded caseless_lower caseless_isupper
           (slide_of [title_shape "   "; text_shape [plain "Body" 0]])
           [] [text_shape [plain "Body" 0]] (title_shape "   ") (py "   ")
           eq_refl eq_refl eq_refl eq_refl).
Defined.

(** ** Further properties of the paragraph resolver *)

Section ResolverMore.

Variable ul : pystr -> N -> pystr -> pystr.

Lemma has_ppt_bullet_element (p : Paragraph) (ppr : PPr) :
  p_pPr p = Ok (Some ppr) ->
  has_bullet_element ppr = true ->
  has_ppt_bullet (bullet_probe p) = true.
Proof.
  intros HP HB. unfold bullet_probe, method1, method2. rewrite HP. simpl.
  rewrite HB. reflexivity.
Qed.

Lemma level_bullet_ends_with_space (level : nat) :
  exists g, level_bullet level = g ++ space.
Proof.
  destruct level as [|[|[|n]]];
    [exists [8226] | exists [9702] | exists [9642] | exists [45]]; reflexivity.
Qed.

Lemma explicit_glyph_resolved (context : option (list Paragraph))
    (p : Paragraph) (char : pystr) :
  explicit_glyph p = Some char ->
  fst (resolve_paragraph ul context p) = char ++ space.
Proof.
  intros G. destruct (text_bullet (strip (p_text p))) as [b|] eqn:T.
  - rewrite (resolve_paragraph_text_bullet ul context p b T). cbn [fst].
    rewrite original_bullet_probe, G. rewrite truthy_app_r; reflexivity.
  - rewrite (resolve_paragraph_no_text_bullet ul context p T). cbv zeta.
    cbn [fst]. rewrite original_bullet_probe, G.
    rewrite truthy_app_r; reflexivity.
Qed.

(** X1. An explicit bullet character (the [char] of [a:buChar]) is always
    the glyph of the paragraph, followed by one space: whatever the level,
    the runs, the context and the text, bullet character in the text
    included. *)
Theorem explicit_glyph_always_wins (context : option (list Paragraph))
    (p : Paragraph) (char : pystr) :
  explicit_glyph p = Some char ->
  fst (resolve_paragraph ul context p) = char ++ space.
Proof. apply explicit_glyph_resolved. Qed.

(** X2. A paragraph with a bullet element that gives no character
    ([a:buAutoNum], [a:buBlip], [a:buFont], or [a:buChar] without [char])
    and without bullet character in its text gets the glyph of its level,
    at level 0 too: "• ", "◦ ", "▪ ", then "- ". *)
Theorem bullet_element_without_char (context : option (list Paragraph))
    (p : Paragraph) (ppr : PPr) :
  p_pPr p = Ok (Some ppr) ->
  has_bullet_element ppr = true ->
  explicit_glyph p = None ->
  text_bullet (strip (p_text p)) = None ->
  fst (resolve_paragraph ul context p) = level_bullet (p_level p)
  /\ level_bullet (p_level p) =
     match p_level p with
     | 0%nat => dot_bullet
     | 1%nat => ring_bullet
     | 2%nat => square_bullet
     | _ => dash_bullet
     end.
Proof.
  intros HP HB G T. split; [|apply level_bullet_cases].
  rewrite (resolve_paragraph_no_text_bullet ul context p T). cbv zeta.
  cbn [fst]. rewrite original_bullet_probe, G.
  rewrite (has_ppt_bullet_element p ppr HP HB). reflexivity.
Qed.

(** X3. The glyph is empty or ends with a space, so glyph and text never
    run together in a rendered line. *)
Theorem glyph_empty_or_spaced (context : option (list Paragraph))
    (p : Paragraph) :
  fst (resolve_paragraph ul context p) = []
  \/ exists g, fst (resolve_paragraph ul context p) = g ++ space.
Proof.
  destruct (text_bullet (strip (p_text p))) as [b|] eqn:T.
  - rewrite (resolve_paragraph_text_bullet ul context p b T). cbn [fst].
    rewrite original_bullet_probe. right.
    destruct (explicit_glyph p) as [c|].
    + rewrite truthy_app_r by reflexivity. eauto.
    + simpl. eauto.
  - rewrite (resolve_paragraph_no_text_bullet ul context p T). cbv zeta.
    cbn [fst]. rewrite original_bullet_probe.
    destruct (explicit_glyph p) as [c|].
    + rewrite truthy_app_r by reflexivity. eauto.
    + simpl truthy. cbv iota.
      destruct (has_ppt_bullet (bullet_probe p));
        [right; apply level_bullet_ends_with_space|].
      destruct (0 <? p_level p)%nat;
        [right; apply level_bullet_ends_with_space|].
      destruct (context_rule ul context (strip (p_text p)));
        [right; exists [8226]; reflexivity|].
      destruct (slide2_condition ul (strip (p_text p)));
        [right; exists [8226]; reflexivity|].
      left. reflexivity.
Qed.

(** X4. When reading the paragraph properties raises an exception other
    than [AttributeError], the paragraph is resolved as one without any
    formatting: the runs are not looked at either. *)
Theorem metadata_error_means_no_signal (context : option (list Paragraph))
    (p : Paragraph) (e : exn) :
  hasattr (p_pPr p) = Raise e ->
  bullet_probe p = probe_init
  /\ resolve_paragraph ul context p
     = resolve_paragraph ul context (without_metadata p).
Proof.
  intros H.
  assert (E : bullet_probe p = probe_init).
  { unfold bullet_probe, method1. rewrite H. reflexivity. }
  split; [exact E|].
  unfold resolve_paragraph. rewrite E. reflexivity.
Qed.

(** X5. An indented paragraph is never rendered without glyph, in the
    loop over a text frame and in the loop that follows a flat text
    alike. *)
Theorem indented_paragraph_has_glyph (context : option (list Paragraph))
    (p : Paragraph) :
  (0 < p_level p)%nat ->
  fst (resolve_paragraph ul context p) <> []
  /\ fst (resolve_paragraph2 p) <> [].
Proof.
  intros L. split.
  - destruct (explicit_glyph p) as [c|] eqn:G.
    + rewrite (explicit_glyph_resolved context p c G).
      apply truthy_true_iff, truthy_app_r. reflexivity.
    + destruct (text_bullet (strip (p_text p))) as [b|] eqn:T.
      * rewrite (resolve_paragraph_text_bullet ul context p b T). cbn [fst].
        rewrite original_bullet_probe, G. simpl.
        apply truthy_true_iff, truthy_app_r. reflexivity.
      * rewrite (indented_paragraph_level ul context p L G T).
        apply truthy_true_iff, level_bullet_truthy.
  - unfold resolve_paragraph2.
    destruct (text_bullet (strip (p_text p))) as [b|]; cbn [fst].
    + simpl. apply truthy_true_iff, truthy_app_r. reflexivity.
    + simpl negb. rewrite andb_true_l.
      apply Nat.ltb_lt in L. rewrite L, orb_true_r. rewrite andb_true_l.
      destruct (truthy (original_bullet
                          (bullet_probe2 p (strip (p_text p))))) eqn:O.
      * simpl. apply truthy_true_iff, O.
      * simpl. destruct (p_level p) as [|[|[|n]]]; discriminate.
Qed.

End ResolverMore.

(** ** Further properties of the lines of a shape *)

Section LinesMore.

Variable ul : pystr -> N -> pystr -> pystr.
Variable iu : N -> bool.

Lemma prev_texts_of_app (xs ys : list Paragraph) :
  prev_texts_of (xs ++ ys) = prev_texts_of xs ++ prev_texts_of ys.
Proof. unfold prev_texts_of. rewrite map_app, filter_app. reflexivity. Qed.

Lemma prev_texts_of_blank (p : Paragraph) :
  nonblank p = false -> prev_texts_of [p] = [].
Proof. unfold prev_texts_of, nonblank. simpl. intros ->. reflexivity. Qed.

(** The resolver reads its context through [prev_texts_of] only. *)
Lemma resolve_paragraph_context (finds : bool) (pre pre' : list Paragraph)
    (p : Paragraph) :
  prev_texts_of pre = prev_texts_of pre' ->
  resolve_paragraph ul (context_of finds pre) p
  = resolve_paragraph ul (context_of finds pre') p.
Proof.
  intros H. unfold resolve_paragraph, context_of.
  destruct finds; [rewrite H|]; reflexivity.
Qed.

Lemma structured_loop_drop_blank (finds : bool) (ps pre pre' : list Paragraph) :
  prev_texts_of pre = prev_texts_of pre' ->
  structured_loop ul finds pre' (filter nonblank ps)
  = structured_loop ul finds pre ps.
Proof.
  revert pre pre'. induction ps as [|p ps IH]; intros pre pre' H; simpl.
  - reflexivity.
  - destruct (nonblank p) eqn:B; unfold nonblank in B.
    + simpl. rewrite B. unfold format_paragraph.
      rewrite (resolve_paragraph_context finds pre pre' p H).
      f_equal. apply IH. rewrite !prev_texts_of_app, H. reflexivity.
    + rewrite B. simpl. apply IH.
      rewrite prev_texts_of_app, (prev_texts_of_blank p B), app_nil_r.
      exact H.
Qed.

Lemma structured_loop_length (finds : bool) (ps pre : list Paragraph) :
  List.length (structured_loop ul finds pre ps)
  = List.length (filter nonblank ps).
Proof.
  revert pre. induction ps as [|p ps IH]; intros pre; simpl.
  - reflexivity.
  - unfold nonblank at 1. destruct (truthy (strip (p_text p))); simpl;
      rewrite IH; reflexivity.
Qed.

(** X6. Paragraphs of white space are invisible: a text frame yields one
    line per paragraph that is not blank, and the lines are the same as
    for the frame without its blank paragraphs (they do not count as
    preceding text for the keyword rule either). *)
Theorem blank_paragraphs_are_invisible (tf : TextFrame) :
  structured_lines ul (drop_blank tf) = structured_lines ul tf
  /\ List.length (structured_lines ul tf)
     = List.length (filter nonblank (paragraphs tf)).
Proof.
  unfold structured_lines, drop_blank. simpl. split.
  - apply structured_loop_drop_blank. reflexivity.
  - apply structured_loop_length.
Qed.

Lemma truthy_lstrip (s : pystr) : truthy (lstrip s) = existsb visible s.
Proof.
  induction s as [|c s IH]; simpl; [reflexivity|].
  unfold visible at 1. destruct (isspace c); simpl; [exact IH | reflexivity].
Qed.

Lemma existsb_visible_rev (s : pystr) :
  existsb visible (rev s) = existsb visible s.
Proof.
  induction s as [|c s IH]; simpl; [reflexivity|].
  rewrite existsb_app, IH. simpl. rewrite orb_false_r. apply orb_comm.
Qed.

Lemma existsb_visible_lstrip (s : pystr) :
  existsb visible (lstrip s) = existsb visible s.
Proof.
  induction s as [|c s IH]; simpl; [reflexivity|].
  unfold visible at 2. destruct (isspace c) eqn:E; simpl; [exact IH|].
  unfold visible at 1. rewrite E. reflexivity.
Qed.

(** A string is blank for [strip] when it has no visible code point. *)
Lemma truthy_strip (s : pystr) : truthy (strip s) = existsb visible s.
Proof.
  unfold strip, rstrip.
  rewrite truthy_lstrip, existsb_visible_rev, existsb_visible_lstrip,
    existsb_visible_rev.
  reflexivity.
Qed.

Lemma rstrip_idempotent (s : pystr) : rstrip (rstrip s) = rstrip s.
Proof. apply rstrip_fixed, rstrip_last. Qed.

Lemma flat_line_nonblank (tc : list pystr) (src : pystr) :
  truthy (strip src) = true -> truthy (strip (flat_line ul iu tc src)) = true.
Proof.
  intros H. rewrite truthy_strip in H.
  assert (V : existsb visible (lstrip src) = true)
    by (rewrite existsb_visible_lstrip; exact H).
  destruct (flat_line_form ul iu tc src) as [F|[_ [bullet [_ F]]]];
    rewrite F, truthy_strip; [exact V|].
  rewrite !existsb_app, V, !orb_true_r. reflexivity.
Qed.

Lemma flat_loop_length (lines tc : list pystr) :
  List.length (flat_loop ul iu lines tc)
  = (List.length tc + List.length (filter nonblank_line lines))%nat.
Proof.
  revert tc. induction lines as [|raw lines IH]; intros tc; simpl.
  - lia.
  - unfold nonblank_line at 1.
    destruct (truthy (strip (rstrip raw))); simpl.
    + rewrite IH, length_app. simpl. lia.
    + apply IH.
Qed.

(** X7. The flat text gives one line per source line that is not blank,
    and none of the lines built is blank: the filter of line 153 on the
    preceding lines never removes anything. *)
Theorem flat_lines_one_per_source_line (shape_text : pystr) :
  List.length (flat_lines ul iu shape_text)
  = List.length (filter nonblank_line (split_on 10 shape_text))
  /\ (forall line, In line (flat_lines ul iu shape_text) ->
        truthy (strip line) = true)
  /\ filter (fun l => truthy (strip l)) (flat_lines ul iu shape_text)
     = flat_lines ul iu shape_text.
Proof.
  assert (NB : forall line, In line (flat_lines ul iu shape_text) ->
                 truthy (strip line) = true).
  { intros line H. unfold flat_lines in H.
    destruct (flat_loop_in ul iu _ _ _ H) as [[]|[raw [tc [_ [T E]]]]].
    rewrite E. apply flat_line_nonblank. exact T. }
  split; [|split].
  - unfold flat_lines. rewrite flat_loop_length. reflexivity.
  - exact NB.
  - apply forallb_filter_id. apply forallb_forall. exact NB.
Qed.

Lemma should_be_bullet_needs (preceding : list pystr) (stripped_line : pystr) :
  should_be_bullet ul iu preceding stripped_line = true ->
  (1 < List.length (split_ws stripped_line))%nat
  /\ endswith stripped_line colon = false.
Proof.
  unfold should_be_bullet.
  set (sw := (1 <? List.length (split_ws stripped_line))%nat).
  set (nc := negb (endswith stripped_line colon)).
  intros H.
  assert (E : sw && nc = true).
  { destruct sw, nc; try reflexivity; exfalso;
      destruct (last_opt preceding) as [l|]; simpl in H;
      rewrite ?andb_false_r in H; simpl in H; discriminate. }
  apply andb_true_iff in E as [A B]. subst sw nc.
  apply Nat.ltb_lt in A. apply negb_true_iff in B. auto.
Qed.

(** X8. In a flat text a line of one word, and a line that ends with a
    colon, never get a synthesized bullet: they are emitted as they are,
    stripped. *)
Theorem flat_header_line_stays_plain (text_content : list pystr)
    (line : pystr) :
  (List.length (split_ws (lstrip line)) <= 1)%nat
  \/ endswith (lstrip line) colon = true ->
  flat_line ul iu text_content line = lstrip line.
Proof.
  intros H. unfold flat_line.
  destruct (any (startswith (lstrip line)) bullet_chars); [reflexivity|].
  destruct (should_be_bullet ul iu _ (lstrip line)) eqn:S; [|reflexivity].
  apply should_be_bullet_needs in S as [A B].
  destruct H as [H|H]; [lia | congruence].
Qed.

End LinesMore.

(** ** Further properties of the image description *)

Lemma strip_nil_of_nil (s : pystr) : strip s <> [] -> truthy s = true.
Proof. destruct s; [intros H; exfalso; apply H; reflexivity | reflexivity]. Qed.

Lemma attr_if_truthy_ok (x : result pystr) (v : pystr) :
  x = Ok v -> truthy v = true -> attr_if_truthy x = Ok (Some v).
Proof. intros -> T. unfold attr_if_truthy. simpl. rewrite T. reflexivity. Qed.

Lemma find_cNvPr_attr_truthy (get : XmlElement -> option pystr)
    (els : list XmlElement) (v : pystr) :
  find_cNvPr_attr get els = Some v ->
  truthy v = true /\ truthy (strip v) = true.
Proof.
  induction els as [|el els IH]; simpl; [discriminate|].
  destruct (el_tag el) as [tag|]; [|discriminate].
  destruct (endswith tag cNvPr); [|exact IH].
  destruct (get el) as [u|]; [|exact IH].
  destruct (truthy u && truthy (strip u)) eqn:T; [|exact IH].
  intros [= <-]. apply andb_true_iff, T.
Qed.

(** Once the probe has a value that is not empty, nothing replaces it
    (the tests [if not alt_text] of lines 342, 354 and 366). *)
Lemma probe_alt_text_method1 (shape : Shape) (alt : pystr) :
  alt_method1 shape = Some alt -> truthy alt = true ->
  probe_alt_text shape = alt.
Proof.
  intros H T. unfold probe_alt_text. rewrite H.
  unfold xml_method, alt_method4. rewrite T. simpl. rewrite T. simpl.
  rewrite T. reflexivity.
Qed.

(** X9. A description that is not blank is the image's entry, stripped,
    whatever the metadata and the name of the shape say, and even when
    the name cannot be read. *)
Theorem description_comes_first (shape : Shape) (n : nat) (d : pystr) :
  description shape = Ok d ->
  strip d <> [] ->
  image_description shape n = Ok (strip d).
Proof.
  intros HD HS. pose proof (strip_nil_of_nil d HS) as T.
  assert (P : probe_alt_text shape = d).
  { apply probe_alt_text_method1; [|exact T].
    unfold alt_method1. rewrite (attr_if_truthy_ok _ d HD T). reflexivity. }
  unfold image_description. rewrite P, T.
  apply truthy_true_iff in HS. rewrite HS. reflexivity.
Qed.

(** X10. A description made of white space only hides every other
    source: the metadata description, the metadata title and the name are
    not consulted, and the entry is the "[No alt-text] " sentinel. *)
Theorem blank_description_hides_metadata (shape : Shape) (n : nat)
    (d nm : pystr) :
  description shape = Ok d ->
  d <> [] ->
  strip d = [] ->
  name shape = Ok nm ->
  image_description shape n = Ok (no_alt_text ++ nm).
Proof.
  intros HD HN HS HM. apply truthy_true_iff in HN.
  assert (P : probe_alt_text shape = d).
  { apply probe_alt_text_method1; [|exact HN].
    unfold alt_method1. rewrite (attr_if_truthy_ok _ d HD HN). reflexivity. }
  unfold image_description. rewrite P, HN, HS, HM. reflexivity.
Qed.

(** The search of lines 344-349 stops at the first [cNvPr] element
    whose attribute is not blank, when the elements before it have string
    tags. *)
Lemma find_cNvPr_attr_first (get : XmlElement -> option pystr)
    (before after : list XmlElement) (el : XmlElement) (tag v : pystr) :
  (forall b, In b before ->
     exists t,
       el_tag b = Some t
       /\ (endswith t cNvPr = false \/ get b = None
           \/ exists u, get b = Some u /\ strip u = [])) ->
  el_tag el = Some tag ->
  endswith tag cNvPr = true ->
  get el = Some v ->
  strip v <> [] ->
  find_cNvPr_attr get (before ++ el :: after) = Some v.
Proof.
  intros HB HT HE HG HV.
  induction before as [|b before IH]; simpl.
  - rewrite HT, HE, HG. rewrite (strip_nil_of_nil v HV).
    apply truthy_true_iff in HV. rewrite HV. reflexivity.
  - destruct (HB b (or_introl eq_refl)) as [t [Ht C]]. rewrite Ht.
    assert (IH' : find_cNvPr_attr get (before ++ el :: after) = Some v).
    { apply IH. intros c Hc. apply HB. right. exact Hc. }
    destruct (endswith t cNvPr) eqn:Et; [|exact IH'].
    destruct C as [C|[C|[u [C S]]]].
    + discriminate.
    + rewrite C. exact IH'.
    + rewrite C, S. simpl. rewrite andb_false_r. exact IH'.
Qed.

Lemma metadata_description_found (shape : Shape) (n : nat)
    (els : list XmlElement) (v : pystr) :
  attr_if_truthy (description shape) = Ok None ->
  attr_if_truthy (alt_text shape) = Ok None ->
  element_iter shape = Ok els ->
  find_cNvPr_attr el_descr els = Some v ->
  image_description shape n = Ok (strip v).
Proof.
  intros HD HA HE HF.
  destruct (find_cNvPr_attr_truthy _ _ _ HF) as [T1 T2].
  assert (P : probe_alt_text shape = v).
  { unfold probe_alt_text, alt_method1. rewrite HD, HA.
    unfold xml_method at 2. simpl negb. cbv iota. rewrite HE, HF.
    unfold xml_method, alt_method4. rewrite T1. simpl. rewrite T1.
    reflexivity. }
  unfold image_description. rewrite P, T1, T2. reflexivity.
Qed.

(** X11. Without description and [alt_text] attribute, the image's entry
    is the stripped [descr] of the first element met by the iteration
    whose tag ends with cNvPr and whose [descr] is not blank, provided
    every element met before it has a string tag: elements with another
    tag, without [descr] or with a blank [descr] are passed over, and what
    comes after the element, the [title] attributes and the name are not
    looked at. *)
Theorem metadata_description_comes_next (shape : Shape) (n : nat)
    (before after : list XmlElement) (el : XmlElement) (tag v : pystr) :
  attr_if_truthy (description shape) = Ok None ->
  attr_if_truthy (alt_text shape) = Ok None ->
  element_iter shape = Ok (before ++ el :: after) ->
  (forall b, In b before ->
     exists t,
       el_tag b = Some t
       /\ (endswith t cNvPr = false \/ el_descr b = None
           \/ exists u, el_descr b = Some u /\ strip u = [])) ->
  el_tag el = Some tag ->
  endswith tag cNvPr = true ->
  el_descr el = Some v ->
  strip v <> [] ->
  image_description shape n = Ok (strip v).
Proof.
  intros HD HA HE HB HT HC HG HV.
  apply (metadata_description_found shape n _ v HD HA HE).
  apply (find_cNvPr_attr_first el_descr before after el tag v HB HT HC HG HV).
Qed.

(** X12. When only the name is left as a source and it is not one of
    the generated names ("Picture ", "Graphic ", "Image " and what
    follows), the stripped name is the entry. *)
Theorem own_name_is_used (shape : Shape) (n : nat) (nm : pystr) :
  only_name_left shape ->
  name shape = Ok nm ->
  strip nm <> [] ->
  any (startswith (strip nm)) generic_names = false ->
  image_description shape n = Ok (strip nm).
Proof.
  intros [HD [HA HX]] HM HS HG. pose proof (strip_nil_of_nil nm HS) as T.
  assert (P : probe_alt_text shape = strip nm).
  { unfold probe_alt_text, alt_method1. rewrite HD, HA.
    rewrite (xml_method_none el_descr shape)
      by (intros els E; apply (HX els E)).
    rewrite (xml_method_none el_title shape)
      by (intros els E; apply (HX els E)).
    unfold alt_method4. simpl negb. cbv iota.
    rewrite (attr_if_truthy_ok _ nm HM T). cbv zeta.
    unfold any in HG. simpl in HG. rewrite HG. reflexivity. }
  unfold image_description. rewrite P, strip_idempotent.
  apply truthy_true_iff in HS. rewrite HS. reflexivity.
Qed.

Lemma startswith_prefix (prefix rest : pystr) :
  startswith (prefix ++ rest) prefix = true.
Proof.
  induction prefix as [|c prefix IH]; simpl.
  - destruct rest; reflexivity.
  - rewrite N.eqb_refl. exact IH.
Qed.

(** X13. An image entry is either a trimmed text that is not empty or
    starts with "[No alt-text] ". *)
Theorem image_entry_shape (shape : Shape) (n : nat) (d : pystr) :
  image_description shape n = Ok d ->
  (strip d = d /\ d <> []) \/ startswith d no_alt_text = true.
Proof.
  unfold image_description.
  destruct (truthy (probe_alt_text shape)
            && truthy (strip (probe_alt_text shape))) eqn:T.
  - intros [= <-]. left. split; [apply strip_idempotent|].
    apply andb_true_iff in T as [_ T]. apply truthy_true_iff, T.
  - destruct (getattr_default (name shape) _) as [f|e]; [|discriminate].
    intros [= <-]. right. exact (startswith_prefix no_alt_text f).
Qed.

(** ** Further properties of the slide assembler *)

Section SlideMore.

Variable ul : pystr -> N -> pystr -> pystr.
Variable iu : N -> bool.

(** One step of the loop, against the shape processed on its own. *)
Lemma process_shape_alone (x : Shape) (sc : SlideRecord) :
  match process_shape ul iu x sc with
  | Ok sc' =>
    content sc' = content sc ++ lines_alone ul iu x
    /\ List.length (images sc')
       = (List.length (images sc) + List.length (images_alone ul iu x))%nat
    /\ warnings_alone ul iu x = []
  | Raise e =>
    lines_alone ul iu x = [] /\ images_alone ul iu x = []
    /\ warnings_alone ul iu x = [warning e]
  end.
Proof.
  unfold lines_alone, images_alone, warnings_alone, process_shape.
  destruct (is_title_placeholder x).
  { simpl. rewrite app_nil_r. repeat split. lia. }
  destruct (shape_type x) as [ty|e]; [|auto].
  destruct (is_PICTURE ty).
  - unfold image_description.
    destruct (truthy (probe_alt_text x) && truthy (strip (probe_alt_text x))).
    + simpl. rewrite app_nil_r, length_app. simpl. auto.
    + destruct (name x) as [nm|[m|m|m]]; simpl;
        rewrite ?app_nil_r, ?length_app; simpl; auto.
  - destruct (extract_text_from_shape ul iu x) as [ls|e]; simpl;
      repeat split; auto; try lia.
Qed.

Lemma content_loop_alone (l : list Shape) (sc : SlideRecord)
    (pr : list pystr) :
  content (fst (content_loop ul iu l sc pr))
  = content sc ++ flat_map (lines_alone ul iu) l
  /\ snd (content_loop ul iu l sc pr)
     = pr ++ flat_map (warnings_alone ul iu) l
  /\ List.length (images (fst (content_loop ul iu l sc pr)))
     = (List.length (images sc)
        + List.length (flat_map (images_alone ul iu) l))%nat.
Proof.
  revert sc pr. induction l as [|x l IH]; intros sc pr; simpl.
  - rewrite !app_nil_r. repeat split. lia.
  - pose proof (process_shape_alone x sc) as H.
    destruct (process_shape ul iu x sc) as [sc'|e].
    + destruct H as [HC [HI HW]].
      destruct (IH sc' pr) as [A [B C]].
      rewrite A, B, C, HC, HI, HW, length_app, <- app_assoc.
      repeat split. lia.
    + destruct H as [HC [HI HW]].
      destruct (IH sc (pr ++ [warning e])) as [A [B C]].
      rewrite A, B, C, HC, HI, HW, <- app_assoc. simpl.
      repeat split.
Qed.

(** X14. The content of a slide is the concatenation, in shape order, of
    the lines each shape gives when processed on its own, and the
    warnings are those of the shapes in the same order: nothing is merged,
    reordered or dropped across shapes. There are as many image entries as
    the shapes give on their own. *)
Theorem slide_content_is_concatenation (slide : Slide) (l : list Shape) :
  shapes slide = Some l ->
  content (fst (extract_slide_text ul iu slide))
  = flat_map (lines_alone ul iu) l
  /\ snd (extract_slide_text ul iu slide)
     = flat_map (warnings_alone ul iu) l
  /\ List.length (images (fst (extract_slide_text ul iu slide)))
     = List.length (flat_map (images_alone ul iu) l).
Proof.
  intros HS. rewrite extract_slide_text_loops, HS. cbv zeta.
  cbn [fst snd content images].
  destruct (content_loop_alone l empty_record []) as [A [B C]].
  rewrite A, B, C. repeat split.
Qed.

Lemma title_of_shape_some (s : Shape) (t : pystr) :
  title_of_shape s = Some t ->
  placeholder_format s = Ok (Some 0)
  /\ exists u, text s = Ok u /\ t = strip u /\ strip u <> [].
Proof.
  unfold title_of_shape.
  destruct (placeholder_format s) as [[idx|]|[m|m|m]]; simpl;
    try discriminate.
  destruct (idx =? 0) eqn:E; [|discriminate].
  apply N.eqb_eq in E. subst idx.
  destruct (text s) as [u|[m|m|m]]; simpl; try discriminate.
  destruct (truthy (strip u)) eqn:T; [|discriminate].
  intros [= <-]. split; [reflexivity|]. exists u.
  split; [reflexivity|]. split; [reflexivity|]. apply truthy_true_iff, T.
Qed.

Lemma title_loop_origin (l : list Shape) (t0 : pystr) :
  title_loop l t0 = t0
  \/ exists s u,
       In s l /\ placeholder_format s = Ok (Some 0) /\ text s = Ok u
       /\ strip u <> [] /\ title_loop l t0 = strip u.
Proof.
  revert t0. induction l as [|x l IH]; intros t0; [left; reflexivity|].
  unfold title_loop in *. simpl.
  destruct (title_of_shape x) as [t|] eqn:T.
  - destruct (IH t) as [E|[s [u [Hin H]]]].
    + right. destruct (title_of_shape_some x t T) as [P [u [A [B C]]]].
      exists x, u. rewrite E. subst t. simpl. auto.
    + right. exists s, u. simpl. tauto.
  - destruct (IH t0) as [E|[s [u [Hin H]]]].
    + left. exact E.
    + right. exists s, u. simpl. tauto.
Qed.

(** X15. The title of the record is empty, or it is the trimmed text of
    a shape of the slide with placeholder index 0: no other shape gives a
    title. Title and notes carry no white space at their ends. *)
Theorem title_comes_from_title_placeholder (slide : Slide) (l : list Shape) :
  shapes slide = Some l ->
  let r := fst (extract_slide_text ul iu slide) in
  (title r = []
   \/ exists s u,
        In s l /\ placeholder_format s = Ok (Some 0) /\ text s = Ok u
        /\ strip u <> [] /\ title r = strip u)
  /\ strip (title r) = title r
  /\ strip (notes r) = notes r.
Proof.
  intros HS r. subst r. rewrite extract_slide_text_loops, HS. cbv zeta.
  cbn [fst title notes].
  pose proof (title_loop_origin l []) as O.
  split; [exact O|]. split.
  - destruct O as [E|[s [u [_ [_ [_ [_ E]]]]]]]; rewrite E;
      [reflexivity | apply strip_idempotent].
  - destruct (notes_text slide) as [t|]; [|reflexivity].
    destruct (truthy (strip t)); [apply strip_idempotent | reflexivity].
Qed.

(** The record without a shape whose processing raises. *)
Lemma failing_shape_record (slide : Slide) (xs ys : list Shape) (s : Shape)
    (e : exn) :
  shapes slide = Some (xs ++ s :: ys) ->
  process_shape ul iu s empty_record = Raise e ->
  fst (extract_slide_text ul iu slide)
  = fst (extract_slide_text ul iu (with_shapes slide (xs ++ ys))).
Proof.
  intros HS HR.
  rewrite !extract_slide_text_loops. simpl shapes. rewrite HS. cbv zeta.
  cbn [fst snd].
  rewrite !title_loop_app. unfold title_loop at 1 3. simpl fold_left.
  rewrite (process_shape_raise_not_title ul iu s _ e HR).
  rewrite !content_loop_app. simpl content_loop.
  rewrite (process_shape_raise_any ul iu s empty_record _ e HR).
  rewrite (content_loop_printed ul iu ys _ (_ ++ [warning e])).
  rewrite (content_loop_printed ul iu ys _
             (snd (content_loop ul iu xs empty_record []))).
  reflexivity.
Qed.

End SlideMore.

(** ** Properties of the report *)

Lemma str_join_cons (sep x : pystr) (rest : list pystr) :
  rest <> [] -> str_join sep (x :: rest) = x ++ sep ++ str_join sep rest.
Proof. destruct rest; [congruence | reflexivity]. Qed.

Lemma str_join_blank_end (sep : pystr) (y : pystr) (ys : list pystr) :
  str_join sep ((y :: ys) ++ [[]]) = str_join sep (y :: ys) ++ sep.
Proof.
  revert y. induction ys as [|z ys IH]; intros y.
  - simpl. rewrite app_nil_r. reflexivity.
  - change ((y :: z :: ys) ++ [[]]) with (y :: ((z :: ys) ++ [[]])).
    rewrite str_join_cons by (simpl; discriminate).
    rewrite IH. rewrite (str_join_cons sep y (z :: ys)) by discriminate.
    rewrite <- !app_assoc. reflexivity.
Qed.

Lemma ends_blank_app (a b : list pystr) : ends_blank b -> ends_blank (a ++ b).
Proof.
  intros [y [ys E]]. subst b. destruct a as [|x a].
  - exists y, ys. reflexivity.
  - exists x, (a ++ y :: ys). simpl. rewrite <- app_assoc. reflexivity.
Qed.

Lemma image_lines_nth (alts : list pystr) (i k : nat) (alt : pystr) :
  nth_error alts k = Some alt ->
  nth_error (image_lines i alts) k
  = Some (image_label ++ str_of_nat (i + k) ++ colon_space ++ alt).
Proof.
  revert i k. induction alts as [|a alts IH]; intros i k H.
  - destruct k; discriminate.
  - destruct k as [|k]; simpl in *.
    + injection H as <-. rewrite Nat.add_0_r. reflexivity.
    + rewrite (IH (S i) k H).
      replace (S i + k)%nat with (i + S k)%nat by lia. reflexivity.
Qed.

(** X16. The block of a slide starts with its header line. A record with
    empty title, content, images and notes gives the header alone, with
    no line break; any other record gives a block that ends with a line
    break, so that blocks joined by a line break are set apart by an
    empty line. *)
Theorem slide_block_shape (slide_num : nat) (sd : SlideRecord) :
  (title sd = [] /\ content sd = [] /\ images sd = [] /\ notes sd = [] ->
   format_slide_output slide_num sd = slide_header slide_num)
  /\ (~ (title sd = [] /\ content sd = [] /\ images sd = [] /\ notes sd = []) ->
      exists body,
        format_slide_output slide_num sd
        = slide_header slide_num ++ newline ++ body ++ newline).
Proof.
  unfold format_slide_output, output_lines. fold (slide_header slide_num).
  split.
  - intros [A [B [C D]]]. rewrite A, B, C, D. simpl. reflexivity.
  - intros H.
    set (T := if truthy (title sd) then [title_header; title sd; []] else []).
    set (C := match content sd with
              | [] => []
              | _ :: _ => [content_header] ++ content sd ++ [[]]
              end).
    set (I := match images sd with
              | [] => []
              | _ :: _ =>
                [images_header] ++ image_lines 1 (images sd) ++ [[]]
              end).
    set (N := if truthy (notes sd) then [notes_header; notes sd; []] else []).
    assert (E : ends_blank (T ++ C ++ I ++ N)).
    { destruct (truthy (notes sd)) eqn:HN.
      { do 3 apply ends_blank_app. exists notes_header, [notes sd].
        reflexivity. }
      subst N. rewrite app_nil_r.
      destruct (images sd) as [|i0 ims] eqn:HI.
      2:{ do 2 apply ends_blank_app.
          exists images_header, (image_lines 1 (i0 :: ims)). reflexivity. }
      subst I. rewrite app_nil_r.
      destruct (content sd) as [|c0 cs] eqn:HC.
      2:{ apply ends_blank_app. exists content_header, (c0 :: cs).
          reflexivity. }
      subst C. rewrite app_nil_r.
      destruct (truthy (title sd)) eqn:HT.
      { exists title_header, [title sd]. reflexivity. }
      exfalso. apply H. apply truthy_false_iff in HT, HN. auto. }
    destruct E as [y [ys E]]. rewrite E.
    change ([slide_header slide_num] ++ (y :: ys) ++ [[]])
      with (slide_header slide_num :: ((y :: ys) ++ [[]])).
    rewrite str_join_cons by (simpl; discriminate).
    rewrite str_join_blank_end. exists (str_join newline (y :: ys)).
    reflexivity.
Qed.

(** X17. The images of a record are listed in their order and numbered
    from 1: the entry at position k gives the line "Image k+1: entry". *)
Theorem images_are_numbered_from_one (slide_num : nat) (sd : SlideRecord)
    (k : nat) (alt : pystr) :
  nth_error (images sd) k = Some alt ->
  In (image_label ++ str_of_nat (k + 1) ++ colon_space ++ alt)
     (output_lines slide_num sd)
  /\ nth_error (image_lines 1 (images sd)) k
     = Some (image_label ++ str_of_nat (k + 1) ++ colon_space ++ alt).
Proof.
  intros H.
  assert (E : nth_error (image_lines 1 (images sd)) k
              = Some (image_label ++ str_of_nat (k + 1) ++ colon_space ++ alt)).
  { rewrite (image_lines_nth _ 1 k alt H).
    replace (1 + k)%nat with (k + 1)%nat by lia. reflexivity. }
  split; [|exact E].
  unfold output_lines. destruct (images sd) as [|i0 ims] eqn:HI.
  - destruct k; discriminate.
  - apply in_or_app. right. apply in_or_app. right. apply in_or_app. right.
    apply in_or_app. left. apply in_or_app. right. apply in_or_app. left.
    apply (nth_error_In _ _ E).
Qed.

(** ** Properties of [extract_powerpoint_text] and [main] *)

Section ReportMore.

Variable ul : pystr -> N -> pystr -> pystr.
Variable iu : N -> bool.

Lemma slides_loop_cons (i : nat) (slide : Slide) (rest : list Slide) :
  fst (slides_loop ul iu i (slide :: rest))
  = format_slide_output i (fst (extract_slide_text ul iu slide))
    :: fst (slides_loop ul iu (S i) rest).
Proof.
  simpl. destruct (extract_slide_text ul iu slide) as [sd ws].
  destruct (slides_loop ul iu (S i) rest) as [outs later]. reflexivity.
Qed.

Lemma slides_loop_nth (slides : list Slide) (i k : nat) (slide : Slide) :
  nth_error slides k = Some slide ->
  nth_error (fst (slides_loop ul iu i slides)) k
  = Some (format_slide_output (i + k)
            (fst (extract_slide_text ul iu slide))).
Proof.
  revert i k. induction slides as [|s slides IH]; intros i k H.
  - destruct k; discriminate.
  - rewrite slides_loop_cons. destruct k as [|k]; simpl in *.
    + injection H as <-. rewrite Nat.add_0_r. reflexivity.
    + rewrite (IH (S i) k H).
      replace (S i + k)%nat with (i + S k)%nat by lia. reflexivity.
Qed.

Lemma slides_loop_length (slides : list Slide) (i : nat) :
  List.length (fst (slides_loop ul iu i slides)) = List.length slides.
Proof.
  revert i. induction slides as [|s slides IH]; intros i; [reflexivity|].
  rewrite slides_loop_cons. simpl. rewrite IH. reflexivity.
Qed.

Lemma format_starts_with_header (n : nat) (sd : SlideRecord) :
  startswith (format_slide_output n sd) (slide_header n) = true.
Proof.
  unfold format_slide_output, output_lines. fold (slide_header n).
  destruct ((if truthy (title sd) then [title_header; title sd; []] else [])
            ++ match content sd with
               | [] => []
               | _ :: _ => [content_header] ++ content sd ++ [[]]
               end
            ++ match images sd with
               | [] => []
               | _ :: _ =>
                 [images_header] ++ image_lines 1 (images sd) ++ [[]]
               end
            ++ (if truthy (notes sd) then [notes_header; notes sd; []]
                else [])) as [|y ys].
  - change (str_join newline ([slide_header n] ++ []))
      with (slide_header n).
    pose proof (startswith_prefix (slide_header n) []) as P.
    rewrite app_nil_r in P. exact P.
  - change ([slide_header n] ++ y :: ys) with (slide_header n :: y :: ys).
    rewrite str_join_cons by discriminate. apply startswith_prefix.
Qed.

(** X18. The report has one block per slide, in deck order; the block
    at position k is the formatted record of the slide at position k,
    and it is headed "=== SLIDE k+1 ===": the numbering starts at 1. *)
Theorem report_blocks_follow_the_deck (slides : list Slide) (k : nat)
    (slide : Slide) :
  nth_error slides k = Some slide ->
  List.length (fst (slides_loop ul iu 1 slides)) = List.length slides
  /\ nth_error (fst (slides_loop ul iu 1 slides)) k
     = Some (format_slide_output (k + 1)
               (fst (extract_slide_text ul iu slide)))
  /\ startswith
       (format_slide_output (k + 1) (fst (extract_slide_text ul iu slide)))
       (slide_header (k + 1)) = true.
Proof.
  intros H. split; [apply slides_loop_length|]. split.
  - rewrite (slides_loop_nth slides 1 k slide H).
    replace (1 + k)%nat with (k + 1)%nat by lia. reflexivity.
  - apply format_starts_with_header.
Qed.

Lemma slides_loop_fst_congr (before after : list Slide) (s s' : Slide)
    (i : nat) :
  fst (extract_slide_text ul iu s) = fst (extract_slide_text ul iu s') ->
  fst (slides_loop ul iu i (before ++ s :: after))
  = fst (slides_loop ul iu i (before ++ s' :: after)).
Proof.
  intros H. revert i. induction before as [|b before IH]; intros i.
  - simpl app. rewrite !slides_loop_cons, H. reflexivity.
  - simpl app. rewrite !slides_loop_cons, IH. reflexivity.
Qed.

(** X19. A shape whose processing raises leaves no trace in the report:
    the text of the report is the one of the deck in which that shape is
    taken out of its slide. *)
Theorem failing_shape_leaves_report_unchanged (before after : list Slide)
    (slide : Slide) (xs ys : list Shape) (s : Shape) (e : exn) :
  shapes slide = Some (xs ++ s :: ys) ->
  process_shape ul iu s empty_record = Raise e ->
  report_text ul iu (before ++ slide :: after)
  = report_text ul iu (before ++ with_shapes slide (xs ++ ys) :: after).
Proof.
  intros HS HR. unfold report_text. f_equal.
  apply slides_loop_fst_congr.
  apply (failing_shape_record ul iu slide xs ys s e HS HR).
Qed.





(** The end of a lower-cased string is the lower-cased end, read in its
    context. *)
Lemma lower_from_app (before x y : pystr) :
  exists pre,
    lower_from ul before (x ++ y)
    = pre ++ lower_from ul (rev x ++ before) y.
Proof.
  revert before. induction x as [|c x IH]; intros before; simpl.
  - exists []. reflexivity.
  - destruct (IH (c :: before)) as [pre E]. rewrite E, <- !app_assoc.
    eexists. rewrite app_assoc. reflexivity.
Qed.

Lemma lower_from_ascii (before y : pystr) :
  Forall (fun c => c < 128) y ->
  lower_from ul before y
  = map (fun c => if (65 <=? c) && (c <=? 90) then c + 32 else c) y.
Proof.
  intros H. revert before. induction H as [|c y Hc _ IH]; intros before.
  - reflexivity.
  - simpl. apply N.ltb_lt in Hc. rewrite Hc. simpl. f_equal. apply IH.
Qed.

Lemma endswith_suffix (a suffix : pystr) : endswith (a ++ suffix) suffix = true.
Proof. unfold endswith. rewrite rev_app_distr. apply startswith_prefix. Qed.

(** X21. The extension test of [main] does not depend on the case of
    ASCII letters: a file name that ends with ".pptx" in any mix of upper
    and lower case passes it, whatever comes before, and [main] then
    exits with status 0 or 1 as [extract_powerpoint_text] returns [True]
    or [False], with the second argument as output file. *)
Theorem extension_test_ignores_case (w : World) (prog base ext : pystr)
    (more : list pystr) :
  pptx_extension ext ->
  endswith (lower ul (base ++ ext)) dot_pptx = true
  /\ main ul iu w (prog :: (base ++ ext) :: more)
     = let o := extract_powerpoint_text ul iu w (base ++ ext)
                  (hd_error more) in
       ((if returned o then 0 else 1)%nat, printed o, written o).
Proof.
  intros [A B].
  assert (E : endswith (lower ul (base ++ ext)) dot_pptx = true).
  { unfold lower. destruct (lower_from_app [] base ext) as [pre P].
    rewrite P, (lower_from_ascii _ ext A), B. apply endswith_suffix. }
  split; [exact E|]. unfold main. rewrite E. simpl negb. cbv iota.
  destruct more; reflexivity.
Qed.

(** X22. With fewer than two entries in [sys.argv], or with an input
    name whose lower-cased form does not end with ".pptx", [main] exits
    with status 1, writes no file and does not look at the file system
    at all: the outcome is the same in every world. *)
Theorem main_rejects_without_touching_files (w w' : World)
    (argv : list pystr) :
  (List.length argv < 2)%nat
  \/ (exists prog input more,
        argv = prog :: input :: more
        /\ endswith (lower ul input) dot_pptx = false) ->
  main ul iu w argv = main ul iu w' argv
  /\ fst (fst (main ul iu w argv)) = 1%nat
  /\ snd (main ul iu w argv) = [].
Proof.
  intros [H|[prog [input [more [E H]]]]].
  - destruct argv as [|a [|b argv]]; simpl in H; try lia; simpl; auto.
  - subst argv. unfold main. rewrite H. simpl. auto.
Qed.

End ReportMore.

(** ** The further properties at sample inputs *)

Import SampleDeck.

Lemma explicit_glyph_always_wins_witness :
  explicit_glyph (with_buChar "- item" 3 "→") = Some (py "→")
  /\ fst (resolve_paragraph caseless_lower (Some [])
            (with_buChar "- item" 3 "→")) = py "→ ".
Proof.
  split; [reflexivity|].
  apply (explicit_glyph_always_wins caseless_lower (Some [])
           (with_buChar "- item" 3 "→") (py "→") eq_refl).
Defined.

Lemma bullet_element_without_char_witness :
  has_bullet_element
    {| buChar := None; buAutoNum := true; buBlip := false; buFont := false;
       buNone := false |} = true
  /\ fst (resolve_paragraph caseless_lower None (with_autonum "First" 0))
     = py "• ".
Proof.
  split; [reflexivity|].
  apply (bullet_element_without_char caseless_lower None
           (with_autonum "First" 0) _ eq_refl eq_refl eq_refl eq_refl).
Defined.

Lemma metadata_error_means_no_signal_witness :
  hasattr (p_pPr (unreadable "Plain" 0)) = Raise (ValueError (py "bad pPr"))
  /\ resolve_paragraph caseless_lower None (unreadable "Plain" 0)
     = ([], py "Plain").
Proof.
  split; [reflexivity|].
  rewrite (proj2 (metadata_error_means_no_signal caseless_lower None
                    (unreadable "Plain" 0) _ eq_refl)).
  reflexivity.
Defined.

Lemma indented_paragraph_has_glyph_witness :
  (0 < p_level (with_buNone "item" 4))%nat
  /\ fst (resolve_paragraph caseless_lower None (with_buNone "item" 4)) <> [].
Proof.
  split; [simpl; lia|].
  refine (proj1 (indented_paragraph_has_glyph caseless_lower None
                   (with_buNone "item" 4) _)).
  simpl. lia.
Defined.

Lemma flat_lines_one_per_source_line_witness :
  In (py "• Item two")
     (flat_lines caseless_lower caseless_isupper scenario_C_text)
  /\ truthy (strip (py "• Item two")) = true.
Proof.
  split; [vm_compute; auto|].
  apply (proj1 (proj2 (flat_lines_one_per_source_line caseless_lower
                         caseless_isupper scenario_C_text))).
  vm_compute. auto.
Defined.

Lemma flat_header_line_stays_plain_witness :
  endswith (lstrip (py "  Next steps:")) colon = true
  /\ flat_line caseless_lower caseless_isupper [py "Agenda"]
       (py "  Next steps:") = py "Next steps:".
Proof.
  split; [reflexivity|].
  apply (flat_header_line_stays_plain caseless_lower caseless_isupper
           [py "Agenda"] (py "  Next steps:")).
  right. reflexivity.
Defined.

Lemma description_comes_first_witness :
  strip (py " Sales chart ") <> []
  /\ image_description
       (described_picture (Ok (py " Sales chart ")) "Other" "Picture 7") 0
     = Ok (py "Sales chart").
Proof.
  split; [vm_compute; discriminate|].
  apply (description_comes_first
           (described_picture (Ok (py " Sales chart ")) "Other" "Picture 7")
           0 (py " Sales chart ") eq_refl).
  vm_compute. discriminate.
Defined.

Lemma blank_description_hides_metadata_witness :
  strip (py "  ") = []
  /\ image_description
       (described_picture (Ok (py "  ")) "Sales chart" "Picture 7") 0
     = Ok (py "[No alt-text] Picture 7").
Proof.
  split; [reflexivity|].
  apply (blank_description_hides_metadata
           (described_picture (Ok (py "  ")) "Sales chart" "Picture 7")
           0 (py "  ") (py "Picture 7") eq_refl).
  - vm_compute. discriminate.
  - reflexivity.
  - reflexivity.
Defined.

Lemma metadata_description_comes_next_witness :
  attr_if_truthy (description three_cNvPr_picture) = Ok None
  /\ strip (py " Sales chart") <> []
  /\ image_description three_cNvPr_picture 0 = Ok (py "Sales chart").
Proof.
  split; [reflexivity|]. split; [vm_compute; discriminate|].
  refine (metadata_description_comes_next three_cNvPr_picture 0
            [{| el_tag := Some (py "{p}pic"); el_descr := None;
                el_title := None |};
             {| el_tag := Some (py "{p}cNvPr"); el_descr := Some (py "  ");
                el_title := Some (py "A title") |}]
            [{| el_tag := Some (py "{a}cNvPr"); el_descr := Some (py "Later");
                el_title := None |}]
            {| el_tag := Some (py "{p}cNvPr");
               el_descr := Some (py " Sales chart"); el_title := None |}
            (py "{p}cNvPr") (py " Sales chart")
            eq_refl eq_refl eq_refl _ eq_refl eq_refl eq_refl _).
  - intros b [<-|[<-|[]]].
    + exists (py "{p}pic"). split; [reflexivity|]. left. reflexivity.
    + exists (py "{p}cNvPr"). split; [reflexivity|]. right. right.
      exists (py "  "). split; reflexivity.
  - vm_compute. discriminate.
Defined.

Lemma own_name_is_used_witness :
  any (startswith (strip (py "Company logo"))) generic_names = false
  /\ image_description (picture "Company logo") 0 = Ok (py "Company logo").
Proof.
  split; [reflexivity|].
  apply (own_name_is_used (picture "Company logo") 0 (py "Company logo")).
  - unfold only_name_left. split; [reflexivity|]. split; [reflexivity|].
    intros els E. injection E as <-. split; reflexivity.
  - reflexivity.
  - vm_compute. discriminate.
  - reflexivity.
Defined.

Lemma image_entry_shape_witness :
  image_description (picture "Picture 3") 2 = Ok (py "[No alt-text] Picture 3")
  /\ ((strip (py "[No alt-text] Picture 3") = py "[No alt-text] Picture 3"
       /\ py "[No alt-text] Picture 3" <> [])
      \/ startswith (py "[No alt-text] Picture 3") no_alt_text = true).
Proof.
  split; [reflexivity|].
  apply (image_entry_shape (picture "Picture 3") 2). reflexivity.
Defined.

Lemma slide_content_is_concatenation_witness :
  shapes (slide_of [text_shape [plain "One" 0]; broken_shape;
                    text_shape [plain "Two" 0]])
  = Some [text_shape [plain "One" 0]; broken_shape;
          text_shape [plain "Two" 0]]
  /\ content (fst (extract_slide_text caseless_lower caseless_isupper
                     (slide_of [text_shape [plain "One" 0]; broken_shape;
                                text_shape [plain "Two" 0]])))
     = flat_map (lines_alone caseless_lower caseless_isupper)
         [text_shape [plain "One" 0]; broken_shape;
          text_shape [plain "Two" 0]].
Proof.
  split; [reflexivity|].
  apply (proj1 (slide_content_is_concatenation caseless_lower
                  caseless_isupper
                  (slide_of [text_shape [plain "One" 0]; broken_shape;
                             text_shape [plain "Two" 0]])
                  [text_shape [plain "One" 0]; broken_shape;
                   text_shape [plain "Two" 0]] eq_refl)).
Defined.

Lemma title_comes_from_title_placeholder_witness :
  shapes (slide_of [title_shape " Intro "; text_shape [plain "Body" 0]])
  = Some [title_shape " Intro "; text_shape [plain "Body" 0]]
  /\ strip (title (fst (extract_slide_text caseless_lower caseless_isupper
                          (slide_of [title_shape " Intro ";
                                     text_shape [plain "Body" 0]]))))
     = title (fst (extract_slide_text caseless_lower caseless_isupper
                     (slide_of [title_shape " Intro ";
                                text_shape [plain "Body" 0]]))).
Proof.
  split; [reflexivity|].
  apply (proj1 (proj2 (title_comes_from_title_placeholder caseless_lower
                         caseless_isupper
                         (slide_of [title_shape " Intro ";
                                    text_shape [plain "Body" 0]])
                         [title_shape " Intro "; text_shape [plain "Body" 0]]
                         eq_refl))).
Defined.

Lemma slide_block_shape_witness :
  format_slide_output 4 empty_record = py "=== SLIDE 4 ===".
Proof.
  apply (proj1 (slide_block_shape 4 empty_record)). repeat split.
Defined.

Lemma images_are_numbered_from_one_witness :
  nth_error [py "Chart"; py "Logo"] 1 = Some (py "Logo")
  /\ In (py "Image 2: Logo")
        (output_lines 1 {| title := []; content := []; notes := [];
                           images := [py "Chart"; py "Logo"] |}).
Proof.
  split; [reflexivity|].
  apply (proj1 (images_are_numbered_from_one 1
                  {| title := []; content := []; notes := [];
                     images := [py "Chart"; py "Logo"] |}
                  1 (py "Logo") eq_refl)).
Defined.

Lemma report_blocks_follow_the_deck_witness :
  nth_error two_slide_deck 1 = Some (slide_of [picture "Picture 3"])
  /\ nth_error (fst (slides_loop caseless_lower caseless_isupper 1
                       two_slide_deck)) 1
     = Some (format_slide_output 2
               (fst (extract_slide_text caseless_lower caseless_isupper
                       (slide_of [picture "Picture 3"])))).
Proof.
  split; [reflexivity|].
  apply (proj1 (proj2 (report_blocks_follow_the_deck caseless_lower
                         caseless_isupper two_slide_deck 1
                         (slide_of [picture "Picture 3"]) eq_refl))).
Defined.

Lemma failing_shape_leaves_report_unchanged_witness :
  process_shape caseless_lower caseless_isupper broken_shape empty_record
  = Raise (OtherException (py "corrupt shape"))
  /\ report_text caseless_lower caseless_isupper
       ([] ++ slide_of ([text_shape [plain "One" 0]] ++ broken_shape :: [])
           :: [])
     = report_text caseless_lower caseless_isupper
         ([] ++ with_shapes
                  (slide_of ([text_shape [plain "One" 0]]
                             ++ broken_shape :: []))
                  ([text_shape [plain "One" 0]] ++ []) :: []).
Proof.
  split; [reflexivity|].
  apply (failing_shape_leaves_report_unchanged caseless_lower
           caseless_isupper [] []
           (slide_of ([text_shape [plain "One" 0]] ++ broken_shape :: []))
           [text_shape [plain "One" 0]] [] broken_shape
           (OtherException (py "corrupt shape")) eq_refl eq_refl).
Defined.


Lemma extension_test_ignores_case_witness :
  pptx_extension (py ".PpTx")
  /\ endswith (lower caseless_lower (py "Quarterly Review" ++ py ".PpTx"))
       dot_pptx = true.
Proof.
  assert (E : pptx_extension (py ".PpTx")).
  { split; [|reflexivity]. repeat constructor. }
  split; [exact E|].
  apply (proj1 (extension_test_ignores_case caseless_lower caseless_isupper
                  empty_world (py "prog") (py "Quarterly Review")
                  (py ".PpTx") [] E)).
Defined.

Lemma main_rejects_without_touching_files_witness :
  endswith (lower caseless_lower (py "notes.txt")) dot_pptx = false
  /\ main caseless_lower caseless_isupper (deck_world two_slide_deck)
       [py "prog"; py "notes.txt"]
     = main caseless_lower caseless_isupper empty_world
         [py "prog"; py "notes.txt"].
Proof.
  split; [reflexivity|].
  apply (proj1 (main_rejects_without_touching_files caseless_lower
                  caseless_isupper (deck_world two_slide_deck) empty_world
                  [py "prog"; py "notes.txt"]
                  (or_intror (ex_intro _ (py "prog")
                     (ex_intro _ (py "notes.txt")
                        (ex_intro _ [] (conj eq_refl eq_refl))))))).
Defined.

(** C9. A picture whose name cannot be read (reading it raises an
    exception other than [AttributeError]) and that has no alt text gets
    no entry: the fallback of line 382 reads the name outside the [try]
    of lines 334-375, the exception leaves the branch before anything is
    appended, and the shape is skipped with a warning, whereas the comment
    of line 377 says that something is always added for an image. *)
Example unreadable_name_drops_the_image :
  probe_alt_text nameless_picture = []
  /\ image_description nameless_picture 0
     = Raise (OtherException (py "list index out of range"))
  /\ extract_slide_text caseless_lower caseless_isupper
       (slide_of [nameless_picture])
     = (empty_record,
        [py "Warning: Skipped shape due to error: list index out of range"]).
Proof. vm_compute. repeat split. Qed.
